(** * The Azure [delete] command of ccoctl: model and properties

    Shallow embedding of [pkg/cmd/provisioning/azure/delete.go].

    The file has four functions and one piece of process-wide state:
    - [deleteManagedIdentities] pages through the user-assigned managed
      identities of a resource group, keeps the ones tagged as owned and
      deletes them one by one;
    - [deleteResourceGroup] starts the deletion of a resource group and
      polls until it is done;
    - [deleteStorageAccount] deletes a storage account;
    - [deleteCmd] fills in the defaults of [DeleteOpts], validates them and
      runs one of the two deletion paths.

    The Azure SDK clients are collaborators.  What they answer is given by
    an oracle that sees the calls made so far; every call is appended,
    with its arguments and its answer, to the trace [calls] of the state.
    Nil pointer dereferences ([Panicked]) and [log.Fatal] ([Exited]) are
    outcomes of their own. *)

From Stdlib Require Import ZArith List Lia Ascii String.
From stdpp Require Import base option strings gmap list.

Open Scope Z_scope.
Open Scope string_scope.
Open Scope list_scope.

(** ** Errors *)

(** A Go [error] value that is not nil: a plain error with its text, or
    what [errors.Wrap] of github.com/pkg/errors builds around a cause. *)
Inductive error : Type :=
| errors_New (msg : string)
| WithMessage (cause : error) (msg : string).

(** [err.Error()] *)
Fixpoint Error (err : error) : string :=
  match err with
  | errors_New msg => msg
  | WithMessage cause msg => msg +:+ ": " +:+ Error cause
  end.

(** [errors.Wrap(err, message)] for [err != nil]; the file only calls it
    under [if err != nil]. *)
Definition errors_Wrap (err : error) (message : string) : error :=
  WithMessage err message.

(** ** Contexts and durations *)

(** The part of a [context.Context] the deletion depends on: its deadline,
    if it has one. *)
Record Context : Type := { Deadline : option Z }.

Definition context_Background : Context := {| Deadline := None |}.

(** [time.Duration] counts nanoseconds in an int64. *)
Definition time_Second : Z := 1000000000.

(** ** Remote resources *)

Module armmsi.
(** [armmsi.Identity]: every field is a pointer, and [Tags] is a
    [map[string]*string]. *)
Record Identity : Type := {
  ID : option string;
  Name : option string;
  Type' : option string;
  Tags : gmap string (option string)
}.

(** [UserAssignedIdentitiesListResult.Value], a [[]*Identity]: one page
    of the listing; an entry is a pointer and may be nil. *)
Definition Page : Type := list (option Identity).

(** A pager, seen from its caller: [More()] is true until a page comes
    without a continuation; every [NextPage] either fails or gives a
    page.  [PageFails] is a fetch that fails, [LastPage] a page after
    which [More()] is false, [PageThen] a page followed by more. *)
Inductive Pager : Type :=
| PageFails (err : error)
| LastPage (page : Page)
| PageThen (page : Page) (rest : Pager).
End armmsi.

(** A remote call, with the arguments the code passed and the error the
    collaborator answered ([None] is a nil error). *)
Inductive Call : Type :=
| NextPageCall (ctx : Context) (resourceGroupName : string)
    (err : option error)
| IdentityDeleteCall (ctx : Context) (resourceGroupName resourceName : string)
    (err : option error)
| BeginDeleteCall (ctx : Context) (resourceGroupName : string)
    (err : option error)
| PollUntilDoneCall (ctx : Context) (Frequency : Z) (err : option error)
| StorageDeleteCall (ctx : Context) (resourceGroupName accountName : string)
    (err : option error).

Module azureclients.
(** The poll handle [BeginDelete] returns. *)
Record Poller : Type := {
  PollUntilDone : list Call -> Context -> Z -> option error
}.

Record UserAssignedIdentitiesClient : Type := {
  NewListByResourceGroupPager : list Call -> string -> armmsi.Pager;
  Delete : list Call -> Context -> string -> string -> option error
}.

Record ResourceGroupsClient : Type := {
  BeginDelete : list Call -> Context -> string -> Poller + error
}.

Record StorageAccountClient : Type := {
  StorageDelete : list Call -> Context -> string -> string -> option error
}.

(** [azureclients.AzureClientWrapper]: the three clients the file uses.
    Each operation gets the calls made so far as its first argument. *)
Record AzureClientWrapper : Type := {
  UserAssignedIdentities : UserAssignedIdentitiesClient;
  ResourceGroups : ResourceGroupsClient;
  StorageAccount : StorageAccountClient
}.
End azureclients.

Import azureclients.

(** ** Options and constants declared elsewhere in the package *)

(** Modelled from the spec: the type [azureOptions] is declared in another
    file of the package.  These are the fields [delete.go] reads or binds
    to a flag, the DeleteOptions of the data model. *)
Record azureOptions : Type := {
  Name : string;
  Region : string;
  SubscriptionID : string;
  OIDCResourceGroupName : string;
  StorageAccountName : string;
  DeleteOIDCResourceGroup : bool;
  DryRun : bool
}.

(** Modelled from the spec: the constant is declared in another file of
    the package; the comment in [deleteManagedIdentities] gives the key as
    openshift.io_cloud-credential-operator_<name>. *)
Definition ownedAzureResourceTagKeyPrefix : string :=
  "openshift.io_cloud-credential-operator".

(** Modelled from the spec: the constant is declared in another file of
    the package; the tag convention gives the value as the literal
    string owned. *)
Definition ownedAzureResourceTagValue : string := "owned".

(** Modelled from the spec: the constant is declared in another file of
    the package; the end-to-end scenario derives cluster1-oidc from
    cluster1. *)
Definition oidcResourceGroupSuffix : string := "-oidc".

(** ** The state of a run and its monad *)

(** The package variable [DeleteOpts], the remote calls made so far and
    the lines logged so far, both oldest first. *)
Record State : Type := {
  DeleteOpts : azureOptions;
  calls : list Call;
  logs : list string
}.

(** How a computation ends: with a value, in a panic on a nil pointer, or
    with the process exiting. *)
Inductive Outcome (A : Type) : Type :=
| Done (a : A)
| Panicked
| Exited (code : Z).
Arguments Done {A} a.
Arguments Panicked {A}.
Arguments Exited {A} code.

Definition M (A : Type) : Type := State -> Outcome A * State.

#[global] Instance M_ret : MRet M := fun A a st => (Done a, st).

#[global] Instance M_bind : MBind M := fun A B k m st =>
  match m st with
  | (Done a, st') => k a st'
  | (Panicked, st') => (Panicked, st')
  | (Exited code, st') => (Exited code, st')
  end.

Definition addCalls (new : list Call) (st : State) : State :=
  {| DeleteOpts := DeleteOpts st; calls := calls st ++ new;
     logs := logs st |}.

Definition addLogs (new : list string) (st : State) : State :=
  {| DeleteOpts := DeleteOpts st; calls := calls st;
     logs := logs st ++ new |}.

(** A nil pointer dereference. *)
Definition panic {A : Type} : M A := fun st => (Panicked, st).

(** [*p] *)
Definition deref {A : Type} (p : option A) : M A :=
  match p with
  | Some a => mret a
  | None => panic
  end.

Definition log_Printf (line : string) : M unit := fun st =>
  (Done tt, addLogs [line] st).

(** [log.Fatal]: print, then [os.Exit(1)]. *)
Definition log_Fatal {A : Type} (line : string) : M A := fun st =>
  (Exited 1, addLogs [line] st).

(** A call to a collaborator: the oracle answers from the calls made so
    far, and the call is appended to the trace. *)
Definition remote {R : Type} (oracle : list Call -> R) (call : R -> Call)
  : M R := fun st =>
  let r := oracle (calls st) in
  (Done r, addCalls [call r] st).

(** Building a pager makes no call; what it will list is fixed by the
    remote state, that is by the calls made so far. *)
Definition newPager (mk : list Call -> armmsi.Pager) : M armmsi.Pager :=
  fun st => (Done (mk (calls st)), st).

(** Reading one field of the global [DeleteOpts] *)
Definition readOpt {A : Type} (field : azureOptions -> A) : M A :=
  fun st => (Done (field (DeleteOpts st)), st).

Definition writeOpts (f : azureOptions -> azureOptions) : M unit :=
  fun st =>
  (Done tt,
   {| DeleteOpts := f (DeleteOpts st); calls := calls st; logs := logs st |}).

Definition setOIDCResourceGroupName (v : string) (o : azureOptions)
  : azureOptions :=
  {| Name := Name o; Region := Region o; SubscriptionID := SubscriptionID o;
     OIDCResourceGroupName := v; StorageAccountName := StorageAccountName o;
     DeleteOIDCResourceGroup := DeleteOIDCResourceGroup o;
     DryRun := DryRun o |}.

Definition setStorageAccountName (v : string) (o : azureOptions)
  : azureOptions :=
  {| Name := Name o; Region := Region o; SubscriptionID := SubscriptionID o;
     OIDCResourceGroupName := OIDCResourceGroupName o;
     StorageAccountName := v;
     DeleteOIDCResourceGroup := DeleteOIDCResourceGroup o;
     DryRun := DryRun o |}.

Definition setDryRun (v : bool) (o : azureOptions) : azureOptions :=
  {| Name := Name o; Region := Region o; SubscriptionID := SubscriptionID o;
     OIDCResourceGroupName := OIDCResourceGroupName o;
     StorageAccountName := StorageAccountName o;
     DeleteOIDCResourceGroup := DeleteOIDCResourceGroup o;
     DryRun := v |}.

(** ** deleteManagedIdentities *)

(** [fmt.Sprintf("%s_%s", ownedAzureResourceTagKeyPrefix, name)] *)
Definition ownedTagKey (name : string) : string :=
  ownedAzureResourceTagKeyPrefix +:+ "_" +:+ name.

(** The body of the inner loop: [identity.Tags[ownedTagKey]] dereferences
    [identity]; [*nameTagValue] is only evaluated when the key is found. *)
Definition selectOwned (key : string) (identity : option armmsi.Identity)
    (managedIdentities : list armmsi.Identity) : M (list armmsi.Identity) :=
  target ← deref identity;
  match armmsi.Tags target !! key with
  | Some nameTagValue =>
      v ← deref nameTagValue;
      if decide (v = ownedAzureResourceTagValue)
      then mret (managedIdentities ++ [target])
      else mret managedIdentities
  | None => mret managedIdentities
  end.

(** [for _, identity := range pageResponse...Value] *)
Fixpoint rangePage (key : string) (page : armmsi.Page)
    (managedIdentities : list armmsi.Identity) : M (list armmsi.Identity) :=
  match page with
  | [] => mret managedIdentities
  | identity :: rest =>
      managedIdentities' ← selectOwned key identity managedIdentities;
      rangePage key rest managedIdentities'
  end.

(** [for listManagedIdentities.More() { ... NextPage ... }]: the value is
    the list collected, or the error of the fetch that failed. *)
Fixpoint listOwned (resourceGroupName key : string) (pager : armmsi.Pager)
    (managedIdentities : list armmsi.Identity)
  : M (list armmsi.Identity + error) :=
  match pager with
  | armmsi.PageFails err =>
      _ ← remote (fun _ => Some err)
            (NextPageCall context_Background resourceGroupName);
      mret (inr err)
  | armmsi.LastPage page =>
      _ ← remote (fun _ => None)
            (NextPageCall context_Background resourceGroupName);
      managedIdentities' ← rangePage key page managedIdentities;
      mret (inl managedIdentities')
  | armmsi.PageThen page rest =>
      _ ← remote (fun _ => None)
            (NextPageCall context_Background resourceGroupName);
      managedIdentities' ← rangePage key page managedIdentities;
      listOwned resourceGroupName key rest managedIdentities'
  end.

(** [for _, identity := range managedIdentities { ... Delete ... }] *)
Fixpoint deleteEach (client : AzureClientWrapper) (resourceGroupName : string)
    (managedIdentities : list armmsi.Identity) : M (option error) :=
  match managedIdentities with
  | [] => mret None
  | identity :: rest =>
      name ← deref (armmsi.Name identity);
      err ← remote
        (fun h => Delete (UserAssignedIdentities client) h
                    context_Background resourceGroupName name)
        (IdentityDeleteCall context_Background resourceGroupName name);
      match err with
      | Some e => mret (Some e)
      | None =>
          type ← deref (armmsi.Type' identity);
          id ← deref (armmsi.ID identity);
          _ ← log_Printf ("Deleted " +:+ type +:+ " " +:+ id);
          deleteEach client resourceGroupName rest
      end
  end.

Definition deleteManagedIdentities (client : AzureClientWrapper)
    (name resourceGroupName subscriptionID region : string)
  : M (option error) :=
  listManagedIdentities ← newPager (fun h =>
    NewListByResourceGroupPager (UserAssignedIdentities client) h
      resourceGroupName);
  let ownedTagKey := ownedTagKey name in
  listed ← listOwned resourceGroupName ownedTagKey listManagedIdentities [];
  match listed with
  | inr err => mret (Some err)
  | inl managedIdentities =>
      if decide (length managedIdentities = 0%nat)
      then
        _ ← log_Printf
          ("Found no user-assigned managed identities with tag key="
           +:+ ownedTagKey +:+ ", value=" +:+ ownedAzureResourceTagValue);
        mret None
      else deleteEach client resourceGroupName managedIdentities
  end.

(** ** deleteResourceGroup and deleteStorageAccount *)

Definition deleteResourceGroup (client : AzureClientWrapper)
    (resourceGroupName : string) : M (option error) :=
  began ← remote
    (fun h => BeginDelete (ResourceGroups client) h context_Background
                resourceGroupName)
    (fun r => BeginDeleteCall context_Background resourceGroupName
                (match r with inl _ => None | inr err => Some err end));
  match began with
  | inr err => mret (Some (errors_Wrap err "failed to delete resource group"))
  | inl pollerResp =>
      err ← remote
        (fun h => PollUntilDone pollerResp h context_Background
                    (10 * time_Second))
        (PollUntilDoneCall context_Background (10 * time_Second));
      match err with
      | Some e => mret (Some e)
      | None =>
          _ ← log_Printf ("Deleted resource group " +:+ resourceGroupName);
          mret None
      end
  end.

Definition deleteStorageAccount (client : AzureClientWrapper)
    (resourceGroupName storageAccountName : string) : M (option error) :=
  err ← remote
    (fun h => StorageDelete (StorageAccount client) h context_Background
                resourceGroupName storageAccountName)
    (StorageDeleteCall context_Background resourceGroupName
       storageAccountName);
  match err with
  | Some e => mret (Some (errors_Wrap e "failed to delete storage account"))
  | None =>
      _ ← log_Printf ("Deleted storage account " +:+ storageAccountName);
      mret None
  end.

(** ** deleteCmd *)

Module azidentity.
(** What [azidentity.NewDefaultAzureCredential] returns on success. *)
Record DefaultAzureCredential : Type := { tenantID : string }.
End azidentity.

(** What the process finds around it: whether a credential can be built,
    and the client bundle built for a subscription. *)
Record Environment : Type := {
  NewDefaultAzureCredential : azidentity.DefaultAzureCredential + error;
  NewAzureClientWrapper :
    string -> azidentity.DefaultAzureCredential -> AzureClientWrapper + error
}.

Section Command.

(** [validateStorageAccountName] is declared in another file of the
    package; [deleteCmd] only looks at whether it returns an error. *)
Variable validateStorageAccountName : string -> option error.

Variable env : Environment.

Definition deleteCmd : M unit :=
  cred ← match NewDefaultAzureCredential env with
         | inl cred => mret cred
         | inr err => log_Fatal (Error err)
         end;
  subscriptionID ← readOpt SubscriptionID;
  azureClientWrapper ←
    match NewAzureClientWrapper env subscriptionID cred with
    | inl client => mret client
    | inr _ => log_Fatal "Failed to create Azure client"
    end;
  oidcResourceGroupName ← readOpt OIDCResourceGroupName;
  _ ← (if decide (oidcResourceGroupName = "")
       then
         name ← readOpt Name;
         _ ← writeOpts
               (setOIDCResourceGroupName (name +:+ oidcResourceGroupSuffix));
         defaulted ← readOpt OIDCResourceGroupName;
         log_Printf
           ("No --oidc-resource-group-name provided, defaulting OIDC resource group name to "
            +:+ defaulted)
       else mret tt);
  storageAccountName ← readOpt StorageAccountName;
  _ ← (if decide (storageAccountName = "")
       then
         name ← readOpt Name;
         _ ← writeOpts (setStorageAccountName name);
         defaulted ← readOpt StorageAccountName;
         log_Printf
           ("No --storage-account-name provided, defaulting storage account name to "
            +:+ defaulted)
       else mret tt);
  storageAccountName ← readOpt StorageAccountName;
  _ ← match validateStorageAccountName storageAccountName with
      | Some err => log_Fatal (Error err)
      | None => mret tt
      end;
  deleteOIDCResourceGroup ← readOpt DeleteOIDCResourceGroup;
  if (deleteOIDCResourceGroup : bool)
  then
    oidcResourceGroupName ← readOpt OIDCResourceGroupName;
    err ← deleteResourceGroup azureClientWrapper oidcResourceGroupName;
    match err with
    | Some e => log_Fatal (Error e)
    | None => mret tt
    end
  else
    name ← readOpt Name;
    oidcResourceGroupName ← readOpt OIDCResourceGroupName;
    subscriptionID ← readOpt SubscriptionID;
    region ← readOpt Region;
    err ← deleteManagedIdentities azureClientWrapper name
            oidcResourceGroupName subscriptionID region;
    _ ← match err with
        | Some e => log_Fatal (Error e)
        | None => mret tt
        end;
    oidcResourceGroupName ← readOpt OIDCResourceGroupName;
    storageAccountName ← readOpt StorageAccountName;
    err ← deleteStorageAccount azureClientWrapper oidcResourceGroupName
            storageAccountName;
    match err with
    | Some e => log_Fatal (Error e)
    | None => mret tt
    end.

End Command.

(** Modelled from the spec: [validateStorageAccountName] is declared in
    another file of the package.  It fails when the length is outside
    3..24 or when a character is not a lowercase ASCII letter or a
    digit. *)
Definition validateStorageAccountName (candidate : string) : option error :=
  let n := Z.of_nat (String.length candidate) in
  let lowerOrDigit (c : ascii) :=
    let k := Z.of_nat (nat_of_ascii c) in
    orb (andb (Z.leb 97 k) (Z.leb k 122)) (andb (Z.leb 48 k) (Z.leb k 57)) in
  if andb (andb (Z.leb 3 n) (Z.leb n 24))
       (forallb lowerOrDigit (list_ascii_of_string candidate))
  then None
  else Some (errors_New
    "storage account name must be 3 to 24 lowercase letters or digits").

(** ** Sample data *)

Module Sample.

Definition tagged (name : string) (value : option string)
  : gmap string (option string) :=
  {[ ownedTagKey name := value ]}.

Definition identity (n : string) (tags : gmap string (option string))
  : armmsi.Identity :=
  {| armmsi.ID := Some ("/subscriptions/s/" +:+ n);
     armmsi.Name := Some n;
     armmsi.Type' := Some "Microsoft.ManagedIdentity/userAssignedIdentities";
     armmsi.Tags := tags |}.


Definition boom : error := errors_New "boom".

(** A client bundle that lists [pager] and whose every other call
    answers as given. *)
Definition client (pager : armmsi.Pager)
    (identityDelete : string -> option error)
    (begin poll storage : option error) : AzureClientWrapper :=
  {| UserAssignedIdentities :=
       {| NewListByResourceGroupPager := fun _ _ => pager;
          Delete := fun _ _ _ n => identityDelete n |};
     ResourceGroups :=
       {| BeginDelete := fun _ _ _ =>
            match begin with
            | Some err => inr err
            | None => inl {| PollUntilDone := fun _ _ _ => poll |}
            end |};
     StorageAccount := {| StorageDelete := fun _ _ _ _ => storage |} |}.

Definition env (c : AzureClientWrapper) : Environment :=
  {| NewDefaultAzureCredential := inl {| azidentity.tenantID := "t" |};
     NewAzureClientWrapper := fun _ _ => inl c |}.

Definition opts (name oidc account : string) (deleteGroup dryRun : bool)
  : azureOptions :=
  {| Name := name; Region := "eastus"; SubscriptionID := "sub";
     OIDCResourceGroupName := oidc; StorageAccountName := account;
     DeleteOIDCResourceGroup := deleteGroup; DryRun := dryRun |}.

Definition start (o : azureOptions) : State :=
  {| DeleteOpts := o; calls := []; logs := [] |}.

(** Two pages: an owned and a foreign identity, then an owned one. *)
Definition twoPages : armmsi.Pager :=
  armmsi.PageThen
    [Some (identity "a" (tagged "cluster1" (Some "owned")));
     Some (identity "b" (tagged "other" (Some "owned")))]
    (armmsi.LastPage [Some (identity "c" (tagged "cluster1" (Some "owned")))]).

(** One page with a single identity that another run owns. *)
Definition foreignOnly : armmsi.Pager :=
  armmsi.LastPage [Some (identity "b" (tagged "other" (Some "owned")))].

(** A page with an owned identity, then a fetch that fails. *)
Definition failsOnSecondPage : armmsi.Pager :=
  armmsi.PageThen [Some (identity "a" (tagged "cluster1" (Some "owned")))]
    (armmsi.PageFails boom).


(** One page with an identity whose value under the owned key is nil. *)
Definition nilTagPage : armmsi.Pager :=
  armmsi.LastPage [Some (identity "a" (tagged "cluster1" None))].

(** Every call succeeds. *)
Definition happy (pager : armmsi.Pager) : AzureClientWrapper :=
  client pager (fun _ => None) None None None.

(** Every identity deletion fails. *)
Definition noDelete (pager : armmsi.Pager) : AzureClientWrapper :=
  client pager (fun _ => Some boom) None None None.

(** The begin of the group deletion succeeds, its polling fails. *)
Definition pollFails : AzureClientWrapper :=
  client twoPages (fun _ => None) None (Some boom) None.

(** The group deletion cannot even begin. *)
Definition beginFails : AzureClientWrapper :=
  client twoPages (fun _ => None) (Some boom) None None.

Definition fineStart : State := start (opts "cluster1" "" "" false false).
Definition groupStart : State := start (opts "cluster1" "" "" true false).
Definition dryStart : State := start (opts "cluster1" "" "" false true).
Definition explicitStart : State :=
  start (opts "cluster1" "mygroup" "myaccount" false false).

End Sample.

(** ** The command and its flags *)

Inductive FlagVar : Type :=
| StringVar (bind : string -> azureOptions -> azureOptions) (value : string)
| BoolVar (bind : bool -> azureOptions -> azureOptions) (value : bool).

Record Flag : Type := {
  flagName : string;
  flagVar : FlagVar;
  flagRequired : bool
}.

Definition setName (v : string) (o : azureOptions) : azureOptions :=
  {| Name := v; Region := Region o; SubscriptionID := SubscriptionID o;
     OIDCResourceGroupName := OIDCResourceGroupName o;
     StorageAccountName := StorageAccountName o;
     DeleteOIDCResourceGroup := DeleteOIDCResourceGroup o;
     DryRun := DryRun o |}.

Definition setRegion (v : string) (o : azureOptions) : azureOptions :=
  {| Name := Name o; Region := v; SubscriptionID := SubscriptionID o;
     OIDCResourceGroupName := OIDCResourceGroupName o;
     StorageAccountName := StorageAccountName o;
     DeleteOIDCResourceGroup := DeleteOIDCResourceGroup o;
     DryRun := DryRun o |}.

Definition setSubscriptionID (v : string) (o : azureOptions) : azureOptions :=
  {| Name := Name o; Region := Region o; SubscriptionID := v;
     OIDCResourceGroupName := OIDCResourceGroupName o;
     StorageAccountName := StorageAccountName o;
     DeleteOIDCResourceGroup := DeleteOIDCResourceGroup o;
     DryRun := DryRun o |}.

Definition setDeleteOIDCResourceGroup (v : bool) (o : azureOptions)
  : azureOptions :=
  {| Name := Name o; Region := Region o; SubscriptionID := SubscriptionID o;
     OIDCResourceGroupName := OIDCResourceGroupName o;
     StorageAccountName := StorageAccountName o;
     DeleteOIDCResourceGroup := v;
     DryRun := DryRun o |}.

(** The flags [NewDeleteCmd] declares, in its order; a flag passed to
    [MarkPersistentFlagRequired] has [flagRequired] set. *)
Definition NewDeleteCmd : list Flag :=
  [ {| flagName := "name"; flagVar := StringVar setName "";
       flagRequired := true |};
    {| flagName := "region"; flagVar := StringVar setRegion "";
       flagRequired := true |};
    {| flagName := "subscription-id";
       flagVar := StringVar setSubscriptionID ""; flagRequired := true |};
    {| flagName := "delete-oidc-resource-group";
       flagVar := BoolVar setDeleteOIDCResourceGroup false;
       flagRequired := false |};
    {| flagName := "storage-account-name";
       flagVar := StringVar setStorageAccountName "";
       flagRequired := false |};
    {| flagName := "dry-run"; flagVar := BoolVar setDryRun false;
       flagRequired := false |};
    {| flagName := "oidc-resource-group-name";
       flagVar := StringVar setOIDCResourceGroupName "";
       flagRequired := false |} ].

Definition requiredFlags (flags : list Flag) : list string :=
  map flagName (List.filter flagRequired flags).

(** ** What a listing holds *)

(** The entries of the pages a pager gives before it ends or fails. *)
Fixpoint entries (pager : armmsi.Pager) : armmsi.Page :=
  match pager with
  | armmsi.PageFails _ => []
  | armmsi.LastPage page => page
  | armmsi.PageThen page rest => page ++ entries rest
  end.

(** The error of the fetch that fails, if one does. *)
Fixpoint pagerError (pager : armmsi.Pager) : option error :=
  match pager with
  | armmsi.PageFails err => Some err
  | armmsi.LastPage _ => None
  | armmsi.PageThen _ rest => pagerError rest
  end.

(** The identity carries the owned tag of [key]. *)
Definition isOwned (key : string) (identity : armmsi.Identity) : bool :=
  bool_decide
    (armmsi.Tags identity !! key = Some (Some ownedAzureResourceTagValue)).

(** The entry can be inspected without a nil dereference: the pointer is
    not nil, and the value under [key], when there is one, is not nil. *)
Definition entryOk (key : string) (entry : option armmsi.Identity) : bool :=
  match entry with
  | None => false
  | Some identity =>
      match armmsi.Tags identity !! key with
      | Some None => false
      | _ => true
      end
  end.

(** [Name], [Type] and [ID] are not nil. *)
Definition derefOk (identity : armmsi.Identity) : bool :=
  match armmsi.Name identity, armmsi.Type' identity, armmsi.ID identity with
  | Some _, Some _, Some _ => true
  | _, _, _ => false
  end.

Definition owned (key : string) (page : armmsi.Page) : list armmsi.Identity :=
  List.filter (isOwned key) (omap id page).

(** The value of the listing loop, as a function of the pager. *)
Fixpoint listingResult (key : string) (pager : armmsi.Pager)
    (acc : list armmsi.Identity) : Outcome (list armmsi.Identity + error) :=
  match pager with
  | armmsi.PageFails err => Done (inr err)
  | armmsi.LastPage page =>
      if forallb (entryOk key) page then Done (inl (acc ++ owned key page))
      else Panicked
  | armmsi.PageThen page rest =>
      if forallb (entryOk key) page
      then listingResult key rest (acc ++ owned key page)
      else Panicked
  end.

(** The calls of the listing loop, as a function of the pager. *)
Fixpoint listingCalls (resourceGroupName key : string) (pager : armmsi.Pager)
  : list Call :=
  match pager with
  | armmsi.PageFails err =>
      [NextPageCall context_Background resourceGroupName (Some err)]
  | armmsi.LastPage _ =>
      [NextPageCall context_Background resourceGroupName None]
  | armmsi.PageThen page rest =>
      NextPageCall context_Background resourceGroupName None ::
      (if forallb (entryOk key) page
       then listingCalls resourceGroupName key rest
       else [])
  end.

(** A page fetch that succeeded. *)
Definition fetched (c : Call) : bool :=
  match c with
  | NextPageCall _ _ None => true
  | _ => false
  end.

(** An identity deletion that succeeded. *)
Definition deleted (c : Call) : bool :=
  match c with
  | IdentityDeleteCall _ _ _ None => true
  | _ => false
  end.

(** A call that went well and belongs to the identity phase. *)
Definition quiet (c : Call) : bool := fetched c || deleted c.

(** A call of the fine-grained path: a page fetch, an identity deletion or
    the storage-account deletion. *)
Definition fineGrained (c : Call) : bool :=
  match c with
  | NextPageCall _ _ _ | IdentityDeleteCall _ _ _ _
  | StorageDeleteCall _ _ _ _ => true
  | BeginDeleteCall _ _ _ | PollUntilDoneCall _ _ _ => false
  end.

(** [c] is the successful deletion of [identity] in [resourceGroupName]. *)
Definition deletionOf (resourceGroupName : string)
    (identity : armmsi.Identity) (c : Call) : Prop :=
  exists name, armmsi.Name identity = Some name /\
    c = IdentityDeleteCall context_Background resourceGroupName name None.

(** The names [deleteCmd] works with once the defaults are in. *)
Definition effectiveGroup (o : azureOptions) : string :=
  if decide (OIDCResourceGroupName o = "")
  then Name o +:+ oidcResourceGroupSuffix
  else OIDCResourceGroupName o.

Definition effectiveAccount (o : azureOptions) : string :=
  if decide (StorageAccountName o = "") then Name o else StorageAccountName o.

(** The defaulting of [deleteCmd], as a function of the state: the two
    names filled in when empty, each with its log line. *)
Definition withOpts (o : azureOptions) (st : State) : State :=
  {| DeleteOpts := o; calls := calls st; logs := logs st |}.

Definition defaultGroup (st : State) : State :=
  if decide (OIDCResourceGroupName (DeleteOpts st) = "")
  then
    addLogs
      ["No --oidc-resource-group-name provided, defaulting OIDC resource group name to "
       +:+ (Name (DeleteOpts st) +:+ oidcResourceGroupSuffix)]
      (withOpts
         (setOIDCResourceGroupName
            (Name (DeleteOpts st) +:+ oidcResourceGroupSuffix) (DeleteOpts st))
         st)
  else st.

Definition defaultAccount (st : State) : State :=
  if decide (StorageAccountName (DeleteOpts st) = "")
  then
    addLogs
      ["No --storage-account-name provided, defaulting storage account name to "
       +:+ Name (DeleteOpts st)]
      (withOpts (setStorageAccountName (Name (DeleteOpts st)) (DeleteOpts st))
         st)
  else st.

Definition defaulted (st : State) : State := defaultAccount (defaultGroup st).

(** The two branches of [deleteCmd], named for the proofs. *)
Definition groupDelete (azureClientWrapper : AzureClientWrapper) : M unit :=
  oidcResourceGroupName ← readOpt OIDCResourceGroupName;
  err ← deleteResourceGroup azureClientWrapper oidcResourceGroupName;
  match err with
  | Some e => log_Fatal (Error e)
  | None => mret tt
  end.

Definition fineGrainedDelete (azureClientWrapper : AzureClientWrapper)
  : M unit :=
  name ← readOpt Name;
  oidcResourceGroupName ← readOpt OIDCResourceGroupName;
  subscriptionID ← readOpt SubscriptionID;
  region ← readOpt Region;
  err ← deleteManagedIdentities azureClientWrapper name
          oidcResourceGroupName subscriptionID region;
  _ ← match err with
      | Some e => log_Fatal (Error e)
      | None => mret tt
      end;
  oidcResourceGroupName ← readOpt OIDCResourceGroupName;
  storageAccountName ← readOpt StorageAccountName;
  err ← deleteStorageAccount azureClientWrapper oidcResourceGroupName
          storageAccountName;
  match err with
  | Some e => log_Fatal (Error e)
  | None => mret tt
  end.

(** The runs of [deleteManagedIdentities]: its value and the calls it
    makes, given what the listing loop produced. *)
Inductive IdentitiesRun (resourceGroupName : string)
    (listing : Outcome (list armmsi.Identity + error))
  : Outcome (option error) -> list Call -> Prop :=
| listing_failed pre e :
    listing = Done (inr e) ->
    forallb fetched pre = true ->
    IdentitiesRun resourceGroupName listing (Done (Some e))
      (pre ++ [NextPageCall context_Background resourceGroupName (Some e)])
| listing_panicked fetches :
    listing = Panicked ->
    forallb fetched fetches = true ->
    IdentitiesRun resourceGroupName listing Panicked fetches
| all_deleted fetches managedIdentities deletes :
    listing = Done (inl managedIdentities) ->
    forallb fetched fetches = true ->
    Forall2 (deletionOf resourceGroupName) managedIdentities deletes ->
    IdentitiesRun resourceGroupName listing (Done None) (fetches ++ deletes)
| deletion_failed fetches managedIdentities pre name e :
    listing = Done (inl managedIdentities) ->
    forallb fetched fetches = true ->
    forallb deleted pre = true ->
    IdentitiesRun resourceGroupName listing (Done (Some e))
      (fetches ++ pre ++
       [IdentityDeleteCall context_Background resourceGroupName name (Some e)])
| deletion_panicked fetches managedIdentities deletes :
    listing = Done (inl managedIdentities) ->
    forallb derefOk managedIdentities = false ->
    forallb fetched fetches = true ->
    forallb deleted deletes = true ->
    IdentitiesRun resourceGroupName listing Panicked (fetches ++ deletes).

(** The runs of the fine-grained path of [deleteCmd]. *)
Inductive FineRun (resourceGroupName storageAccountName : string)
    (listing : Outcome (list armmsi.Identity + error))
  : Outcome unit -> list Call -> Prop :=
| identities_failed new e :
    IdentitiesRun resourceGroupName listing (Done (Some e)) new ->
    FineRun resourceGroupName storageAccountName listing (Exited 1) new
| identities_panicked new :
    IdentitiesRun resourceGroupName listing Panicked new ->
    FineRun resourceGroupName storageAccountName listing Panicked new
| storage_attempted new res :
    IdentitiesRun resourceGroupName listing (Done None) new ->
    FineRun resourceGroupName storageAccountName listing
      (match res with None => Done tt | Some _ => Exited 1 end)
      (new ++ [StorageDeleteCall context_Background resourceGroupName
                 storageAccountName res]).



(** Two option records that differ at most in [DryRun]. *)
Definition sameButDryRun (o1 o2 : azureOptions) : Prop :=
  Name o1 = Name o2 /\ Region o1 = Region o2 /\
  SubscriptionID o1 = SubscriptionID o2 /\
  OIDCResourceGroupName o1 = OIDCResourceGroupName o2 /\
  StorageAccountName o1 = StorageAccountName o2 /\
  DeleteOIDCResourceGroup o1 = DeleteOIDCResourceGroup o2.

(** Two states with the same calls and log lines, whose options differ at
    most in [DryRun]. *)
Definition alike (st1 st2 : State) : Prop :=
  sameButDryRun (DeleteOpts st1) (DeleteOpts st2) /\
  calls st1 = calls st2 /\ logs st1 = logs st2.

(** A computation that does not see [DryRun]: from alike states it gives
    the same outcome and alike states. *)
Definition dryRunBlind {A : Type} (m : M A) : Prop :=
  forall st1 st2, alike st1 st2 ->
    fst (m st1) = fst (m st2) /\ alike (snd (m st1)) (snd (m st2)).

(** ** More vocabulary for traces *)

(** The resource group a call is made on, when it names one. *)
Definition callGroup (c : Call) : option string :=
  match c with
  | NextPageCall _ g _ | IdentityDeleteCall _ g _ _ | BeginDeleteCall _ g _
  | StorageDeleteCall _ g _ _ => Some g
  | PollUntilDoneCall _ _ _ => None
  end.

(** The context a call was made under. *)
Definition callContext (c : Call) : Context :=
  match c with
  | NextPageCall ctx _ _ | IdentityDeleteCall ctx _ _ _
  | BeginDeleteCall ctx _ _ | PollUntilDoneCall ctx _ _
  | StorageDeleteCall ctx _ _ _ => ctx
  end.

(** The error a call answered. *)
Definition callError (c : Call) : option error :=
  match c with
  | NextPageCall _ _ err | IdentityDeleteCall _ _ _ err
  | BeginDeleteCall _ _ err | PollUntilDoneCall _ _ err
  | StorageDeleteCall _ _ _ err => err
  end.

Definition succeeded (c : Call) : bool :=
  match callError c with
  | None => true
  | Some _ => false
  end.

(** The line [deleteCmd] logs on its way out when [c] has failed: the text
    of the error, behind the context the two wrapping sites add. *)
Definition failureLine (c : Call) : option string :=
  match c with
  | BeginDeleteCall _ _ (Some e) =>
      Some ("failed to delete resource group: " +:+ Error e)
  | StorageDeleteCall _ _ _ (Some e) =>
      Some ("failed to delete storage account: " +:+ Error e)
  | NextPageCall _ _ (Some e) | IdentityDeleteCall _ _ _ (Some e)
  | PollUntilDoneCall _ _ (Some e) => Some (Error e)
  | _ => None
  end.

(** [line] is what the deletion loop logs once [identity] is deleted. *)
Definition loggedAs (identity : armmsi.Identity) (line : string) : Prop :=
  exists type id,
    armmsi.Type' identity = Some type /\ armmsi.ID identity = Some id /\
    line = "Deleted " +:+ type +:+ " " +:+ id.

(** Two option records that differ at most in [Region]. *)
Definition sameButRegion (o1 o2 : azureOptions) : Prop :=
  Name o1 = Name o2 /\ SubscriptionID o1 = SubscriptionID o2 /\
  OIDCResourceGroupName o1 = OIDCResourceGroupName o2 /\
  StorageAccountName o1 = StorageAccountName o2 /\
  DeleteOIDCResourceGroup o1 = DeleteOIDCResourceGroup o2 /\
  DryRun o1 = DryRun o2.

(** Two states with the same calls and log lines, whose options differ at
    most in [Region]. *)
Definition akin (st1 st2 : State) : Prop :=
  sameButRegion (DeleteOpts st1) (DeleteOpts st2) /\
  calls st1 = calls st2 /\ logs st1 = logs st2.

(** A computation that does not see [Region]. *)
Definition regionBlind {A : Type} (m : M A) : Prop :=
  forall st1 st2, akin st1 st2 ->
    fst (m st1) = fst (m st2) /\ akin (snd (m st1)) (snd (m st2)).

(** [c] is aimed where [deleteCmd] was told to work: under the background
    context, on the resource group, for a storage deletion on the account,
    and for a poll with a frequency of ten seconds. *)
Definition onTarget (group account : string) (c : Call) : Prop :=
  match c with
  | NextPageCall ctx g _ | IdentityDeleteCall ctx g _ _
  | BeginDeleteCall ctx g _ => ctx = context_Background /\ g = group
  | PollUntilDoneCall ctx frequency _ =>
      ctx = context_Background /\ frequency = 10 * time_Second
  | StorageDeleteCall ctx g a _ =>
      ctx = context_Background /\ g = group /\ a = account
  end.

(** More sample data. *)
Module Scenario.

(** An identity tagged for one name only. *)
Definition taggedFor (owner : string) : armmsi.Identity :=
  Sample.identity "a" (Sample.tagged owner (Some "owned")).

(** Three owned identities on one page; the second has no [Type]. *)
Definition threeOwned : armmsi.Pager :=
  armmsi.LastPage
    [Some (Sample.identity "a" (Sample.tagged "cluster1" (Some "owned")));
     Some {| armmsi.ID := Some "/subscriptions/s/b";
             armmsi.Name := Some "b"; armmsi.Type' := None;
             armmsi.Tags := Sample.tagged "cluster1" (Some "owned") |};
     Some (Sample.identity "c" (Sample.tagged "cluster1" (Some "owned")))].

(** The deletion of the identity named c fails, the others succeed. *)
Definition failsOnC (pager : armmsi.Pager) : AzureClientWrapper :=
  Sample.client pager
    (fun n => if decide (n = "c") then Some Sample.boom else None)
    None None None.

(** The storage-account deletion fails, everything else succeeds. *)
Definition storageFails (pager : armmsi.Pager) : AzureClientWrapper :=
  Sample.client pager (fun _ => None) None None (Some Sample.boom).

(** No credential can be built. *)
Definition noCredential : Environment :=
  {| NewDefaultAzureCredential := inr Sample.boom;
     NewAzureClientWrapper := fun _ _ => inl (Sample.happy Sample.twoPages) |}.

(** The client bundle cannot be built. *)
Definition noClient : Environment :=
  {| NewDefaultAzureCredential := inl {| azidentity.tenantID := "t" |};
     NewAzureClientWrapper := fun _ _ => inr Sample.boom |}.

(** An account name that the validation refuses. *)
Definition badAccountStart : State :=
  Sample.start (Sample.opts "cluster1" "" "Not-Valid" false false).




Definition westStart : State :=
  {| DeleteOpts :=
       setRegion "westus" (Sample.opts "cluster1" "" "" false false);
     calls := []; logs := [] |}.

End Scenario.

(** * Properties *)

(** ** The monad *)

Ltac unfold_M :=
  unfold deref, panic, log_Printf, log_Fatal, remote, newPager, readOpt,
    writeOpts in *;
  unfold mbind, M_bind, mret, M_ret in *.

Lemma addCalls_addCalls a b st :
  addCalls b (addCalls a st) = addCalls (a ++ b) st.
Proof. unfold addCalls; simpl. by rewrite app_assoc. Qed.

(** ** The listing loop *)

Lemma selectOwned_spec key entry acc st :
  selectOwned key entry acc st =
  (if entryOk key entry then Done (acc ++ owned key [entry]) else Panicked,
   st).
Proof.
  unfold selectOwned, owned, isOwned, entryOk. unfold_M.
  destruct entry as [identity|]; simpl; [|done].
  destruct (armmsi.Tags identity !! key) as [[v|]|] eqn:E; simpl.
  - destruct (decide (v = ownedAzureResourceTagValue)) as [->|Hv].
    + by rewrite bool_decide_eq_true_2.
    + rewrite bool_decide_eq_false_2; [by rewrite app_nil_r | congruence].
  - done.
  - by rewrite app_nil_r.
Qed.

Lemma owned_cons key entry page :
  owned key (entry :: page) = owned key [entry] ++ owned key page.
Proof.
  unfold owned. destruct entry as [identity|]; simpl; [|done].
  by destruct (isOwned key identity).
Qed.

Lemma owned_app key page1 page2 :
  owned key (page1 ++ page2) = owned key page1 ++ owned key page2.
Proof.
  induction page1 as [|entry page1 IH]; [done|].
  rewrite <- app_comm_cons, (owned_cons _ _ (page1 ++ page2)), IH.
  by rewrite (owned_cons _ _ page1), app_assoc.
Qed.

Lemma rangePage_spec key page acc st :
  rangePage key page acc st =
  (if forallb (entryOk key) page then Done (acc ++ owned key page)
   else Panicked, st).
Proof.
  revert acc. induction page as [|entry page IH]; intros acc; simpl.
  - unfold_M. unfold owned; simpl. by rewrite app_nil_r.
  - unfold mbind, M_bind. rewrite selectOwned_spec.
    destruct (entryOk key entry); simpl; [|done].
    rewrite IH, (owned_cons _ _ page).
    by rewrite app_assoc.
Qed.

Lemma listOwned_spec resourceGroupName key pager acc st :
  listOwned resourceGroupName key pager acc st =
  (listingResult key pager acc,
   addCalls (listingCalls resourceGroupName key pager) st).
Proof.
  revert acc st. induction pager as [err|page|page rest IH]; intros acc st;
    simpl.
  - done.
  - unfold mbind, M_bind, remote; simpl. rewrite rangePage_spec.
    by destruct (forallb (entryOk key) page).
  - unfold mbind, M_bind, remote; simpl. rewrite rangePage_spec.
    destruct (forallb (entryOk key) page); [|done].
    by rewrite IH, addCalls_addCalls.
Qed.

Lemma listingResult_not_Exited key pager acc code :
  listingResult key pager acc <> Exited code.
Proof.
  revert acc. induction pager as [err|page|page rest IH]; intros acc; simpl;
    try destruct (forallb (entryOk key) page); done.
Qed.

(** The calls of the listing loop are successful fetches, but for a last
    one when the loop ends on a failed fetch. *)
Lemma listingCalls_shape resourceGroupName key pager acc :
  match listingResult key pager acc with
  | Done (inr e) =>
      exists pre,
        listingCalls resourceGroupName key pager =
          pre ++ [NextPageCall context_Background resourceGroupName (Some e)]
        /\ forallb fetched pre = true
  | _ => forallb fetched (listingCalls resourceGroupName key pager) = true
  end.
Proof.
  revert acc. induction pager as [err|page|page rest IH]; intros acc; simpl.
  - by exists [].
  - by destruct (forallb (entryOk key) page).
  - destruct (forallb (entryOk key) page); [|done].
    specialize (IH (acc ++ owned key page)).
    destruct (listingResult key rest (acc ++ owned key page))
      as [[ids|e]| |code]; try done.
    destruct IH as (pre & -> & Hpre).
    by exists (NextPageCall context_Background resourceGroupName None :: pre).
Qed.

(** Without a nil entry the listing gives the owned entries, or the error
    of the fetch that failed; with one it panics. *)
Lemma listingResult_entries key pager acc :
  listingResult key pager acc =
  if forallb (entryOk key) (entries pager)
  then match pagerError pager with
       | Some e => Done (inr e)
       | None => Done (inl (acc ++ owned key (entries pager)))
       end
  else Panicked.
Proof.
  revert acc. induction pager as [err|page|page rest IH]; intros acc; simpl.
  - done.
  - done.
  - rewrite forallb_app. destruct (forallb (entryOk key) page); simpl; [|done].
    rewrite IH. destruct (forallb (entryOk key) (entries rest)); [|done].
    destruct (pagerError rest); [done|].
    by rewrite owned_app, app_assoc.
Qed.

(** ** The deletion loop *)

Lemma deleteEach_inv client resourceGroupName managedIdentities st r st' :
  deleteEach client resourceGroupName managedIdentities st = (r, st') ->
  DeleteOpts st' = DeleteOpts st /\
  exists new, calls st' = calls st ++ new /\
    match r with
    | Done None =>
        Forall2 (deletionOf resourceGroupName) managedIdentities new
    | Done (Some e) =>
        exists pre name,
          new = pre ++ [IdentityDeleteCall context_Background
                          resourceGroupName name (Some e)]
          /\ forallb deleted pre = true
    | Panicked =>
        forallb deleted new = true /\
        forallb derefOk managedIdentities = false
    | Exited _ => False
    end.
Proof.
  revert st. induction managedIdentities as [|identity rest IH]; intros st H.
  - simpl in H. unfold_M. inversion H; subst. split; [done|].
    exists []. rewrite app_nil_r. split; [done|]. constructor.
  - simpl in H.
    assert (Hbad : derefOk identity = false ->
                   forallb derefOk (identity :: rest) = false)
      by (intros Hb; cbn [forallb]; by rewrite Hb).
    destruct (armmsi.Name identity) as [name|] eqn:EName.
    2:{ unfold_M. inversion H; subst. split; [done|].
        exists []. rewrite app_nil_r. split; [done|]. split; [done|].
        apply Hbad. unfold derefOk. by rewrite EName. }
    unfold mbind, M_bind, deref, mret, M_ret, remote in H. simpl in H.
    destruct (Delete (UserAssignedIdentities client) (calls st)
                context_Background resourceGroupName name) as [e|] eqn:EDel.
    { inversion H; subst. split; [done|].
      eexists. split; [done|]. exists [], name. done. }
    destruct (armmsi.Type' identity) as [type|] eqn:EType.
    2:{ unfold panic in H. inversion H; subst. split; [done|].
        eexists. split; [done|]. split; [done|].
        apply Hbad. unfold derefOk. by rewrite EName, EType. }
    destruct (armmsi.ID identity) as [id|] eqn:EID.
    2:{ unfold panic in H. inversion H; subst. split; [done|].
        eexists. split; [done|]. split; [done|].
        apply Hbad. unfold derefOk. by rewrite EName, EType, EID. }
    unfold log_Printf in H. apply IH in H as (Hopts & new & Hcalls & Hr).
    split; [done|].
    exists (IdentityDeleteCall context_Background resourceGroupName name None
              :: new).
    split; [simpl in Hcalls; rewrite Hcalls; by rewrite <- app_assoc|].
    destruct r as [[e|]| |code].
    + destruct Hr as (pre & n & -> & Hpre).
      by exists (IdentityDeleteCall context_Background resourceGroupName name
                   None :: pre), n.
    + constructor; [by exists name | done].
    + destruct Hr as [Hnew Hrest]. split; [done|].
      cbn [forallb]. rewrite Hrest. apply andb_false_r.
    + done.
Qed.



(** ** deleteManagedIdentities *)

Lemma deleteManagedIdentities_spec client name resourceGroupName
    subscriptionID region st :
  let pager :=
    NewListByResourceGroupPager (UserAssignedIdentities client) (calls st)
      resourceGroupName in
  let st1 :=
    addCalls (listingCalls resourceGroupName (ownedTagKey name) pager) st in
  deleteManagedIdentities client name resourceGroupName subscriptionID region
    st =
  match listingResult (ownedTagKey name) pager [] with
  | Done (inr e) => (Done (Some e), st1)
  | Done (inl []) =>
      (Done None,
       addLogs ["Found no user-assigned managed identities with tag key="
                +:+ ownedTagKey name +:+ ", value="
                +:+ ownedAzureResourceTagValue] st1)
  | Done (inl managedIdentities) =>
      deleteEach client resourceGroupName managedIdentities st1
  | Panicked => (Panicked, st1)
  | Exited code => (Exited code, st1)
  end.
Proof.
  intros pager st1. unfold deleteManagedIdentities.
  unfold mbind at 1. unfold M_bind, newPager.
  unfold mbind at 1. unfold M_bind. rewrite listOwned_spec. fold pager st1.
  destruct (listingResult (ownedTagKey name) pager []) as [[ids|e]| |code];
    try done.
  by destruct ids.
Qed.

Lemma deleteManagedIdentities_run client name resourceGroupName
    subscriptionID region st r st' :
  deleteManagedIdentities client name resourceGroupName subscriptionID region
    st = (r, st') ->
  DeleteOpts st' = DeleteOpts st /\
  exists new, calls st' = calls st ++ new /\
    IdentitiesRun resourceGroupName
      (listingResult (ownedTagKey name)
         (NewListByResourceGroupPager (UserAssignedIdentities client)
            (calls st) resourceGroupName) [])
      r new.
Proof.
  rewrite deleteManagedIdentities_spec.
  set (pager := NewListByResourceGroupPager _ _ _).
  set (key := ownedTagKey name).
  pose proof (listingCalls_shape resourceGroupName key pager []) as Hshape.
  pose proof (listingResult_not_Exited key pager []) as Hexit.
  destruct (listingResult key pager []) as [[ids|e]| |code] eqn:Elist.
  - assert (Hrun : forall new,
      Forall2 (deletionOf resourceGroupName) ids new ->
      IdentitiesRun resourceGroupName (Done (inl ids)) (Done None)
        (listingCalls resourceGroupName key pager ++ new))
      by (intros new Hnew; by eapply all_deleted).
    destruct ids as [|identity ids].
    + intros H; inversion H; subst; clear H. split; [done|].
      exists (listingCalls resourceGroupName key pager ++ []).
      split; [simpl; by rewrite app_nil_r|]. apply Hrun. constructor.
    + intros H. apply deleteEach_inv in H as (Hopts & new & Hcalls & Hr).
      split; [done|].
      exists (listingCalls resourceGroupName key pager ++ new).
      split; [simpl in Hcalls; by rewrite Hcalls, app_assoc|].
      destruct r as [[e|]| |code].
      * destruct Hr as (pre & n & -> & Hpre). by eapply deletion_failed.
      * by apply Hrun.
      * destruct Hr as [Hnew Hbad]. by eapply deletion_panicked.
      * done.
  - intros H; inversion H; subst; clear H. split; [done|].
    destruct Hshape as (pre & Hpre & Hfetched).
    eexists. split; [done|]. rewrite Hpre. by apply listing_failed.
  - intros H; inversion H; subst; clear H. split; [done|].
    eexists. split; [done|]. by apply listing_panicked.
  - by specialize (Hexit code).
Qed.

(** ** deleteResourceGroup and deleteStorageAccount *)

Lemma deleteResourceGroup_spec client resourceGroupName st :
  deleteResourceGroup client resourceGroupName st =
  match BeginDelete (ResourceGroups client) (calls st) context_Background
          resourceGroupName with
  | inr e =>
      (Done (Some (errors_Wrap e "failed to delete resource group")),
       addCalls [BeginDeleteCall context_Background resourceGroupName (Some e)]
         st)
  | inl pollerResp =>
      let began := BeginDeleteCall context_Background resourceGroupName None in
      let answer :=
        PollUntilDone pollerResp (calls st ++ [began]) context_Background
          (10 * time_Second) in
      let st2 :=
        addCalls
          [began;
           PollUntilDoneCall context_Background (10 * time_Second) answer]
          st in
      match answer with
      | Some e => (Done (Some e), st2)
      | None =>
          (Done None,
           addLogs ["Deleted resource group " +:+ resourceGroupName] st2)
      end
  end.
Proof.
  unfold deleteResourceGroup. unfold_M. simpl.
  destruct (BeginDelete (ResourceGroups client) (calls st) context_Background
              resourceGroupName) as [pollerResp|e]; [|done].
  rewrite addCalls_addCalls. simpl.
  by destruct (PollUntilDone pollerResp _ _ _).
Qed.

Lemma deleteStorageAccount_spec client resourceGroupName storageAccountName
    st :
  let answer :=
    StorageDelete (StorageAccount client) (calls st) context_Background
      resourceGroupName storageAccountName in
  let st1 :=
    addCalls
      [StorageDeleteCall context_Background resourceGroupName
         storageAccountName answer] st in
  deleteStorageAccount client resourceGroupName storageAccountName st =
  match answer with
  | Some e =>
      (Done (Some (errors_Wrap e "failed to delete storage account")), st1)
  | None =>
      (Done None,
       addLogs ["Deleted storage account " +:+ storageAccountName] st1)
  end.
Proof.
  unfold deleteStorageAccount. unfold_M. simpl.
  by destruct (StorageDelete (StorageAccount client) _ _ _ _).
Qed.

(** ** deleteCmd *)

Lemma defaulted_calls st : calls (defaulted st) = calls st.
Proof.
  unfold defaulted, defaultAccount, defaultGroup.
  repeat case_decide; done.
Qed.

Lemma defaulted_group st :
  OIDCResourceGroupName (DeleteOpts (defaulted st)) =
  effectiveGroup (DeleteOpts st).
Proof.
  unfold defaulted, defaultAccount, defaultGroup, effectiveGroup.
  repeat case_decide; done.
Qed.

Lemma defaulted_account st :
  StorageAccountName (DeleteOpts (defaulted st)) =
  effectiveAccount (DeleteOpts st).
Proof.
  unfold defaulted, defaultAccount, defaultGroup, effectiveAccount.
  repeat case_decide; simpl in *; congruence.
Qed.

Lemma defaulted_others st :
  let o := DeleteOpts st in
  let o' := DeleteOpts (defaulted st) in
  Name o' = Name o /\ Region o' = Region o /\
  SubscriptionID o' = SubscriptionID o /\
  DeleteOIDCResourceGroup o' = DeleteOIDCResourceGroup o /\
  DryRun o' = DryRun o.
Proof.
  unfold defaulted, defaultAccount, defaultGroup.
  repeat case_decide; done.
Qed.

Section CommandFacts.

Variable validate : string -> option error.
Variable env : Environment.

(** [deleteCmd] by cases: the three fatal exits before any call, then
    one of the two paths on the state with the defaults in. *)
Lemma deleteCmd_spec st :
  deleteCmd validate env st =
  match NewDefaultAzureCredential env with
  | inr err => (Exited 1, addLogs [Error err] st)
  | inl cred =>
      match NewAzureClientWrapper env (SubscriptionID (DeleteOpts st)) cred
      with
      | inr _ => (Exited 1, addLogs ["Failed to create Azure client"] st)
      | inl client =>
          match validate (effectiveAccount (DeleteOpts st)) with
          | Some err => (Exited 1, addLogs [Error err] (defaulted st))
          | None =>
              if DeleteOIDCResourceGroup (DeleteOpts st)
              then groupDelete client (defaulted st)
              else fineGrainedDelete client (defaulted st)
          end
      end
  end.
Proof.
  unfold deleteCmd.
  destruct (NewDefaultAzureCredential env) as [cred|err]; [|done].
  unfold mbind at 1. unfold M_bind, mret at 1, M_ret.
  unfold mbind at 1. unfold M_bind, readOpt at 1.
  destruct (NewAzureClientWrapper env (SubscriptionID (DeleteOpts st)) cred)
    as [client|err]; [|done].
  rewrite <- (defaulted_account st).
  destruct (defaulted_others st) as (_ & _ & _ & Hflag & _).
  rewrite <- Hflag. clear Hflag.
  unfold defaulted, defaultAccount, defaultGroup, groupDelete,
    fineGrainedDelete.
  unfold_M. simpl.
  destruct (decide (OIDCResourceGroupName (DeleteOpts st) = ""));
    simpl;
    (destruct (decide (StorageAccountName (DeleteOpts st) = "")); simpl;
     [ destruct (validate (Name (DeleteOpts st))); [reflexivity|]
     | destruct (validate (StorageAccountName (DeleteOpts st)));
       [reflexivity|] ];
     simpl; destruct (DeleteOIDCResourceGroup (DeleteOpts st));
     reflexivity).
Qed.

End CommandFacts.

Lemma groupDelete_spec client st :
  groupDelete client st =
  match deleteResourceGroup client (OIDCResourceGroupName (DeleteOpts st)) st
  with
  | (Done (Some e), st') => (Exited 1, addLogs [Error e] st')
  | (Done None, st') => (Done tt, st')
  | (Panicked, st') => (Panicked, st')
  | (Exited code, st') => (Exited code, st')
  end.
Proof.
  unfold groupDelete. unfold mbind, M_bind, readOpt, log_Fatal, mret, M_ret.
  destruct (deleteResourceGroup client _ st) as [[[e|]| |code] st']; done.
Qed.

(** ** Traces *)

Lemma forallb_In {A} (f : A -> bool) l x :
  forallb f l = true -> In x l -> f x = true.
Proof. intros H. by apply forallb_forall. Qed.

Lemma fetched_quiet l : forallb fetched l = true -> forallb quiet l = true.
Proof.
  rewrite !forallb_forall. intros H c Hc. unfold quiet. by rewrite H.
Qed.

Lemma deleted_quiet l : forallb deleted l = true -> forallb quiet l = true.
Proof.
  rewrite !forallb_forall. intros H c Hc. unfold quiet.
  rewrite (H c Hc). apply orb_true_r.
Qed.

Lemma deletionOf_deleted resourceGroupName managedIdentities deletes :
  Forall2 (deletionOf resourceGroupName) managedIdentities deletes ->
  forallb deleted deletes = true.
Proof.
  induction 1 as [|identity c ids cs (name & _ & ->) _ IH]; [done|].
  simpl. done.
Qed.

(** In a trace that is quiet but for its last call, a call that is not
    quiet is the last one. *)
Lemma loud_is_last pre last (c : Call) :
  forallb quiet pre = true -> quiet c = false ->
  In c (pre ++ [last]) -> c = last.
Proof.
  intros Hpre Hc Hin. apply in_app_or in Hin as [Hin|[<-|[]]]; [|done].
  rewrite (forallb_In _ _ _ Hpre Hin) in Hc. done.
Qed.

(** A run of [deleteManagedIdentities] is quiet, or quiet up to a last
    call that failed, whose error is the value of the run. *)
Lemma IdentitiesRun_shape resourceGroupName listing r new :
  IdentitiesRun resourceGroupName listing r new ->
  (forallb quiet new = true /\ (r = Done None \/ r = Panicked)) \/
  (exists pre e,
     r = Done (Some e) /\ forallb quiet pre = true /\
     ((new = pre ++ [NextPageCall context_Background resourceGroupName
                       (Some e)] /\ forallb fetched pre = true) \/
      (exists name,
         new = pre ++ [IdentityDeleteCall context_Background
                         resourceGroupName name (Some e)]))).
Proof.
  intros [pre e _ Hpre|fetches _ Hf|fetches ids deletes _ Hf Hd
          |fetches ids pre name e _ Hf Hpre|fetches ids deletes _ _ Hf Hd].
  - right. exists pre, e. split; [done|]. split; [by apply fetched_quiet|].
    by left.
  - left. split; [by apply fetched_quiet | by right].
  - left. split; [|by left]. rewrite forallb_app.
    rewrite (fetched_quiet _ Hf).
    by rewrite (deleted_quiet _ (deletionOf_deleted _ _ _ Hd)).
  - right. exists (fetches ++ pre), e. split; [done|].
    split.
    + rewrite forallb_app.
      by rewrite (fetched_quiet _ Hf), (deleted_quiet _ Hpre).
    + right. exists name. by rewrite app_assoc.
  - left. split; [|by right]. rewrite forallb_app.
    by rewrite (fetched_quiet _ Hf), (deleted_quiet _ Hd).
Qed.

Lemma fineGrainedDelete_run client st r st' :
  fineGrainedDelete client st = (r, st') ->
  DeleteOpts st' = DeleteOpts st /\
  exists new, calls st' = calls st ++ new /\
    FineRun (OIDCResourceGroupName (DeleteOpts st))
      (StorageAccountName (DeleteOpts st))
      (listingResult (ownedTagKey (Name (DeleteOpts st)))
         (NewListByResourceGroupPager (UserAssignedIdentities client)
            (calls st) (OIDCResourceGroupName (DeleteOpts st))) [])
      r new.
Proof.
  unfold fineGrainedDelete. unfold mbind, M_bind, readOpt.
  destruct (deleteManagedIdentities client _ _ _ _ st) as [r1 st1] eqn:E1.
  apply deleteManagedIdentities_run in E1 as (Hopts & new & Hcalls & Hrun).
  destruct r1 as [[e|]| |code].
  - unfold log_Fatal. intros H; inversion H; subst; clear H.
    split; [done|]. exists new. split; [done|]. by eapply identities_failed.
  - unfold mret, M_ret. rewrite deleteStorageAccount_spec. rewrite !Hopts.
    set (res := StorageDelete _ _ _ _ _).
    intros H.
    assert (Hfine : FineRun (OIDCResourceGroupName (DeleteOpts st))
              (StorageAccountName (DeleteOpts st))
              (listingResult (ownedTagKey (Name (DeleteOpts st)))
                 (NewListByResourceGroupPager (UserAssignedIdentities client)
                    (calls st) (OIDCResourceGroupName (DeleteOpts st))) [])
              (match res with None => Done tt | Some _ => Exited 1 end)
              (new ++ [StorageDeleteCall context_Background
                         (OIDCResourceGroupName (DeleteOpts st))
                         (StorageAccountName (DeleteOpts st)) res]))
      by (by apply storage_attempted).
    destruct res as [e|]; unfold log_Fatal in H; inversion H; subst; clear H;
      simpl; (split; [done|]); eexists;
      (split; [by rewrite Hcalls, <- app_assoc | exact Hfine]).
  - intros H; inversion H; subst; clear H. split; [done|].
    exists new. split; [done|]. by apply identities_panicked.
  - inversion Hrun.
Qed.

(** [c] occurs in a quiet trace, or in one that is quiet up to its last
    call: it is quiet itself, or it is that last call. *)
Ltac locate_call Hq Hin :=
  match type of Hin with
  | In ?c (_ ++ [_]) =>
      let Heq := fresh "Heq" in
      pose proof (loud_is_last _ _ c Hq eq_refl Hin) as Heq;
      try discriminate Heq
  | In ?c _ =>
      let Heq := fresh "Heq" in
      pose proof (forallb_In _ _ c Hq Hin) as Heq;
      try discriminate Heq
  end.

(** In a run of the fine-grained path, a storage-account deletion is the
    last call, and before it come the fetches and then one successful
    deletion for each identity the listing gave. *)
Lemma FineRun_storage resourceGroupName storageAccountName listing r new
    ctx rg account res :
  FineRun resourceGroupName storageAccountName listing r new ->
  In (StorageDeleteCall ctx rg account res) new ->
  exists fetches deletes managedIdentities,
    new = fetches ++ deletes ++ [StorageDeleteCall ctx rg account res] /\
    forallb fetched fetches = true /\
    Forall2 (deletionOf rg) managedIdentities deletes /\
    listing = Done (inl managedIdentities) /\
    rg = resourceGroupName /\ account = storageAccountName /\
    r = match res with None => Done tt | Some _ => Exited 1 end.
Proof.
  intros [new0 e Hrun|new0 Hrun|new0 res0 Hrun] Hin.
  - apply IdentitiesRun_shape in Hrun
      as [[Hq _]|(pre & e0 & _ & Hq & [[-> _]|[name ->]])].
    + locate_call Hq Hin.
    + locate_call Hq Hin.
    + locate_call Hq Hin.
  - apply IdentitiesRun_shape in Hrun
      as [[Hq _]|(pre & e0 & ? & _)]; [|done].
    locate_call Hq Hin.
  - inversion Hrun as [| |fetches ids deletes Hl Hf Hd| |]; subst.
    assert (Hq : forallb quiet (fetches ++ deletes) = true).
    { rewrite forallb_app, (fetched_quiet _ Hf).
      by rewrite (deleted_quiet _ (deletionOf_deleted _ _ _ Hd)). }
    locate_call Hq Hin. inversion Heq; subst.
    exists fetches, deletes, ids. by rewrite <- app_assoc.
Qed.

(** In a run of the fine-grained path, an identity deletion that failed is
    the last call, and the command exits. *)
Lemma FineRun_deletion_failed resourceGroupName storageAccountName listing r
    new ctx rg name e :
  FineRun resourceGroupName storageAccountName listing r new ->
  In (IdentityDeleteCall ctx rg name (Some e)) new ->
  r = Exited 1 /\
  exists pre,
    new = pre ++ [IdentityDeleteCall ctx rg name (Some e)] /\
    forallb quiet pre = true.
Proof.
  intros [new0 e1 Hrun|new0 Hrun|new0 res0 Hrun] Hin.
  - split; [done|].
    apply IdentitiesRun_shape in Hrun
      as [[Hq _]|(pre & e0 & _ & Hq & [[-> _]|[name0 ->]])].
    + locate_call Hq Hin.
    + locate_call Hq Hin.
    + locate_call Hq Hin. rewrite Heq. by exists pre.
  - apply IdentitiesRun_shape in Hrun
      as [[Hq _]|(pre & e0 & ? & _)]; [|done].
    locate_call Hq Hin.
  - apply IdentitiesRun_shape in Hrun
      as [[Hq _]|(pre & e0 & ? & _)]; [|done].
    locate_call Hq Hin.
Qed.

Lemma In_owned key page identity :
  In identity (owned key page) <->
  In (Some identity) page /\ isOwned key identity = true.
Proof.
  unfold owned. rewrite filter_In, <- !list_elem_of_In, list_elem_of_omap.
  split.
  - intros [(entry & Hentry & Hid) Howned]. simpl in Hid. by subst entry.
  - intros [Hentry Howned]. split; [|done]. by exists (Some identity).
Qed.

Lemma groupDelete_opts client st :
  DeleteOpts (snd (groupDelete client st)) = DeleteOpts st.
Proof.
  rewrite groupDelete_spec, deleteResourceGroup_spec. cbv zeta.
  destruct (BeginDelete _ _ _ _) as [pollerResp|e]; [|done].
  by destruct (PollUntilDone pollerResp _ _ _).
Qed.

(** Once the client is built, the options [deleteCmd] leaves behind are
    the ones it started from with the defaults in. *)
Lemma deleteCmd_opts validate env st cred client :
  NewDefaultAzureCredential env = inl cred ->
  NewAzureClientWrapper env (SubscriptionID (DeleteOpts st)) cred
    = inl client ->
  DeleteOpts (snd (deleteCmd validate env st)) = DeleteOpts (defaulted st).
Proof.
  intros Hcred Hclient. rewrite deleteCmd_spec, Hcred, Hclient.
  destruct (validate _); [done|].
  destruct (DeleteOIDCResourceGroup (DeleteOpts st)).
  - apply groupDelete_opts.
  - destruct (fineGrainedDelete client (defaulted st)) as [r st'] eqn:E.
    by apply fineGrainedDelete_run in E as [Hopts _].
Qed.

(** ** Computations that do not see DryRun *)

Lemma blind_ret {A} (a : A) : dryRunBlind (mret a).
Proof. intros st1 st2 H. done. Qed.

Lemma blind_bind {A B} (m : M A) (k : A -> M B) :
  dryRunBlind m -> (forall a, dryRunBlind (k a)) -> dryRunBlind (m ≫= k).
Proof.
  intros Hm Hk st1 st2 H. unfold mbind, M_bind.
  destruct (Hm st1 st2 H) as [Hr Hst].
  destruct (m st1) as [r1 st1'], (m st2) as [r2 st2']. simpl in Hr, Hst.
  subst r2. destruct r1 as [a| |code]; [by apply Hk | done | done].
Qed.

Lemma blind_panic {A} : dryRunBlind (@panic A).
Proof. intros st1 st2 H. done. Qed.

Lemma blind_deref {A} (p : option A) : dryRunBlind (deref p).
Proof. destruct p; [apply blind_ret | apply blind_panic]. Qed.

Lemma blind_log_Printf line : dryRunBlind (log_Printf line).
Proof.
  intros st1 st2 (Ho & Hc & Hl). unfold log_Printf, alike. simpl.
  by rewrite Hl.
Qed.

Lemma blind_log_Fatal {A} line : dryRunBlind (@log_Fatal A line).
Proof.
  intros st1 st2 (Ho & Hc & Hl). unfold log_Fatal, alike. simpl.
  by rewrite Hl.
Qed.

Lemma blind_remote {R} (oracle : list Call -> R) (call : R -> Call) :
  dryRunBlind (remote oracle call).
Proof.
  intros st1 st2 (Ho & Hc & Hl). unfold remote, alike. simpl.
  by rewrite Hc.
Qed.

Lemma blind_newPager mk : dryRunBlind (newPager mk).
Proof.
  intros st1 st2 (Ho & Hc & Hl). unfold newPager, alike. simpl.
  by rewrite Hc.
Qed.

Lemma blind_readOpt {A} (field : azureOptions -> A) :
  (forall o1 o2, sameButDryRun o1 o2 -> field o1 = field o2) ->
  dryRunBlind (readOpt field).
Proof.
  intros Hfield st1 st2 (Ho & Hc & Hl). unfold readOpt, alike. simpl.
  by rewrite (Hfield _ _ Ho).
Qed.

Lemma blind_writeOpts (f : azureOptions -> azureOptions) :
  (forall o1 o2, sameButDryRun o1 o2 -> sameButDryRun (f o1) (f o2)) ->
  dryRunBlind (writeOpts f).
Proof.
  intros Hf st1 st2 (Ho & Hc & Hl). unfold writeOpts, alike. simpl.
  split; [done|]. split; [by apply Hf | done].
Qed.

(** One step of a proof that a computation does not see [DryRun]. *)
Ltac blind_step :=
  first
    [ apply blind_bind; [|intros ?]
    | apply blind_ret
    | apply blind_panic
    | apply blind_deref
    | apply blind_log_Printf
    | apply blind_log_Fatal
    | apply blind_remote
    | apply blind_newPager
    | apply blind_readOpt; intros ? ? (? & ? & ? & ? & ? & ?); assumption
    | apply blind_writeOpts; intros ? ? (? & ? & ? & ? & ? & ?);
      repeat split; simpl; congruence
    | assumption
    | match goal with
      | |- dryRunBlind (match ?x with _ => _ end) => destruct x
      end ].

Lemma blind_rangePage key page acc : dryRunBlind (rangePage key page acc).
Proof.
  revert acc. induction page as [|entry page IH]; intros acc; simpl.
  - apply blind_ret.
  - apply blind_bind; [|intros ?; apply IH].
    unfold selectOwned. repeat blind_step.
Qed.

Lemma blind_listOwned resourceGroupName key pager acc :
  dryRunBlind (listOwned resourceGroupName key pager acc).
Proof.
  revert acc. induction pager as [err|page|page rest IH]; intros acc; simpl.
  - repeat blind_step.
  - apply blind_bind; [apply blind_remote|intros ?].
    apply blind_bind; [apply blind_rangePage|intros ?]. apply blind_ret.
  - apply blind_bind; [apply blind_remote|intros ?].
    apply blind_bind; [apply blind_rangePage|intros ?]. apply IH.
Qed.

Lemma blind_deleteEach client resourceGroupName managedIdentities :
  dryRunBlind (deleteEach client resourceGroupName managedIdentities).
Proof.
  induction managedIdentities as [|identity rest IH]; simpl;
    repeat blind_step.
Qed.

Lemma blind_deleteManagedIdentities client name resourceGroupName
    subscriptionID region :
  dryRunBlind
    (deleteManagedIdentities client name resourceGroupName subscriptionID
       region).
Proof.
  unfold deleteManagedIdentities.
  apply blind_bind; [apply blind_newPager|intros pager].
  apply blind_bind; [apply blind_listOwned|intros [ids|err]].
  - case_decide; [repeat blind_step | apply blind_deleteEach].
  - apply blind_ret.
Qed.

Lemma blind_deleteResourceGroup client resourceGroupName :
  dryRunBlind (deleteResourceGroup client resourceGroupName).
Proof. unfold deleteResourceGroup. repeat blind_step. Qed.

Lemma blind_deleteStorageAccount client resourceGroupName storageAccountName :
  dryRunBlind
    (deleteStorageAccount client resourceGroupName storageAccountName).
Proof. unfold deleteStorageAccount. repeat blind_step. Qed.

Lemma blind_deleteCmd validate env : dryRunBlind (deleteCmd validate env).
Proof.
  unfold deleteCmd.
  repeat first
    [ apply blind_deleteResourceGroup
    | apply blind_deleteManagedIdentities
    | apply blind_deleteStorageAccount
    | blind_step ].
Qed.

(** * Main results *)

(** C1. Path exclusivity.  With [DeleteOIDCResourceGroup] set, whatever the
    other options and whatever the collaborators answer, the calls of
    [deleteCmd] are none (a fatal exit before the deletion), the begin of
    the resource-group deletion alone (it failed, the command exits), or
    that begin followed by one poll, after which the command ends.  No page
    fetch, identity deletion or storage-account deletion is among them, and
    once the credential, the client and the validation are fine the
    resource-group deletion is begun, on the group named by the options. *)
Theorem group_delete_is_exclusive validate env st :
  DeleteOIDCResourceGroup (DeleteOpts st) = true ->
  let r := fst (deleteCmd validate env st) in
  let st' := snd (deleteCmd validate env st) in
  let group := effectiveGroup (DeleteOpts st) in
  exists new,
    calls st' = calls st ++ new /\
    existsb fineGrained new = false /\
    ((new = [] /\ r = Exited 1) \/
     (exists e,
        new = [BeginDeleteCall context_Background group (Some e)] /\
        r = Exited 1) \/
     (exists res,
        new = [BeginDeleteCall context_Background group None;
               PollUntilDoneCall context_Background (10 * time_Second) res]
        /\ r = match res with None => Done tt | Some _ => Exited 1 end)) /\
    (forall cred client,
       NewDefaultAzureCredential env = inl cred ->
       NewAzureClientWrapper env (SubscriptionID (DeleteOpts st)) cred
         = inl client ->
       validate (effectiveAccount (DeleteOpts st)) = None ->
       exists res tail,
         new = BeginDeleteCall context_Background group res :: tail).
Proof.
  intros Hflag r st' group. subst r st'.
  destruct (deleteCmd validate env st) as [r st'] eqn:E. simpl.
  rewrite deleteCmd_spec, Hflag in E.
  destruct (NewDefaultAzureCredential env) as [cred|err] eqn:Ecred.
  2:{ inversion E; subst; clear E. exists []. simpl. rewrite app_nil_r.
      split; [done|]. split; [done|]. split; [by left|]. congruence. }
  destruct (NewAzureClientWrapper env _ cred) as [client|err] eqn:Eclient.
  2:{ inversion E; subst; clear E. exists []. simpl. rewrite app_nil_r.
      split; [done|]. split; [done|]. split; [by left|].
      intros cred' client' Hcred. congruence. }
  destruct (validate _) as [err|] eqn:Evalid.
  { inversion E; subst; clear E. exists []. simpl.
    rewrite defaulted_calls, app_nil_r.
    split; [done|]. split; [done|]. split; [by left|]. congruence. }
  rewrite groupDelete_spec, deleteResourceGroup_spec, defaulted_group in E.
  fold group in E. rewrite defaulted_calls in E. cbv zeta in E.
  destruct (BeginDelete (ResourceGroups client) (calls st) context_Background
              group) as [pollerResp|e].
  - match type of E with
    | context [PollUntilDone pollerResp ?h ?c ?f] =>
        set (res := PollUntilDone pollerResp h c f) in E
    end.
    exists [BeginDeleteCall context_Background group None;
            PollUntilDoneCall context_Background (10 * time_Second) res].
    destruct res as [e|]; inversion E; subst; clear E; simpl;
      rewrite defaulted_calls;
      (split; [done|]); (split; [done|]);
      (split; [right; right; by eexists | by eexists _, _]).
  - inversion E; subst; clear E.
    exists [BeginDeleteCall context_Background group (Some e)].
    simpl. rewrite defaulted_calls.
    split; [done|]. split; [done|].
    split; [right; left; by eexists | by eexists _, _].
Qed.

(** C2. Ordering of the fine-grained path.  With [DeleteOIDCResourceGroup]
    unset: if the storage-account deletion is called at all it is the last
    call, and the calls before it are the page fetches, all successful,
    followed by one successful deletion for each identity the listing loop
    collected, in its order; and if the deletion of an identity fails, that
    call is the last one, every call before it is a successful fetch or
    deletion, the command exits with status 1 and the storage-account
    deletion is not among the calls. *)
Theorem identities_before_storage validate env st :
  DeleteOIDCResourceGroup (DeleteOpts st) = false ->
  let r := fst (deleteCmd validate env st) in
  let st' := snd (deleteCmd validate env st) in
  exists new,
    calls st' = calls st ++ new /\
    (forall ctx rg account res,
       In (StorageDeleteCall ctx rg account res) new ->
       exists fetches deletes managedIdentities,
         new = fetches ++ deletes ++ [StorageDeleteCall ctx rg account res] /\
         forallb fetched fetches = true /\
         Forall2 (deletionOf rg) managedIdentities deletes /\
         exists cred client,
           NewDefaultAzureCredential env = inl cred /\
           NewAzureClientWrapper env (SubscriptionID (DeleteOpts st)) cred
             = inl client /\
           fst (listOwned rg (ownedTagKey (Name (DeleteOpts st)))
                  (NewListByResourceGroupPager (UserAssignedIdentities client)
                     (calls st) rg) [] st)
             = Done (inl managedIdentities)) /\
    (forall ctx rg name e,
       In (IdentityDeleteCall ctx rg name (Some e)) new ->
       r = Exited 1 /\
       (exists pre,
          new = pre ++ [IdentityDeleteCall ctx rg name (Some e)] /\
          forallb quiet pre = true) /\
       forall ctx' rg' account res,
         ~ In (StorageDeleteCall ctx' rg' account res) new).
Proof.
  intros Hflag r st'. subst r st'.
  destruct (deleteCmd validate env st) as [r st'] eqn:E. simpl.
  rewrite deleteCmd_spec, Hflag in E.
  destruct (NewDefaultAzureCredential env) as [cred|err] eqn:Ecred.
  2:{ inversion E; subst; clear E. exists []. simpl. rewrite app_nil_r.
      split; [done|]. split; intros; done. }
  destruct (NewAzureClientWrapper env _ cred) as [client|err] eqn:Eclient.
  2:{ inversion E; subst; clear E. exists []. simpl. rewrite app_nil_r.
      split; [done|]. split; intros; done. }
  destruct (validate _) as [err|] eqn:Evalid.
  { inversion E; subst; clear E. exists []. simpl.
    rewrite defaulted_calls, app_nil_r.
    split; [done|]. split; intros; done. }
  apply fineGrainedDelete_run in E as (_ & new & Hcalls & Hrun).
  rewrite defaulted_calls, defaulted_group, defaulted_account in *.
  destruct (defaulted_others st) as (HName & _). simpl in HName.
  rewrite HName in Hrun. clear HName.
  exists new. split; [done|]. split.
  - intros ctx rg account res Hin.
    destruct (FineRun_storage _ _ _ _ _ _ _ _ _ Hrun Hin)
      as (fetches & deletes & ids & Hnew & Hf & Hd & Hl & -> & _).
    exists fetches, deletes, ids. split; [done|]. split; [done|].
    split; [done|]. exists cred, client. split; [done|]. split; [done|].
    by rewrite listOwned_spec.
  - intros ctx rg name e Hin.
    destruct (FineRun_deletion_failed _ _ _ _ _ _ _ _ _ Hrun Hin)
      as (Hr & pre & Hnew & Hq).
    split; [done|]. split; [by exists pre|].
    intros ctx' rg' account res Hin'. rewrite Hnew in Hin'.
    locate_call Hq Hin'.
Qed.

Lemma forallb_false_In {A} (f : A -> bool) l :
  forallb f l = false <-> exists x, In x l /\ f x = false.
Proof.
  induction l as [|a l IH]; simpl.
  - split; [done | by intros (x & [] & _)].
  - rewrite andb_false_iff, IH. split.
    + intros [Ha|(x & Hin & Hx)]; [exists a | exists x]; tauto.
    + intros (x & [<-|Hin] & Hx); [by left | right; by exists x].
Qed.

Lemma entryOk_false key entry :
  entryOk key entry = false <->
  entry = None \/
  exists identity,
    entry = Some identity /\ armmsi.Tags identity !! key = Some None.
Proof.
  unfold entryOk. destruct entry as [identity|].
  - destruct (armmsi.Tags identity !! key) as [[v|]|] eqn:E.
    + split; [done|]. intros [H|(identity' & H & Htag)]; [done|].
      inversion H; subst. congruence.
    + split; [|done]. intros _. right. by exists identity.
    + split; [done|]. intros [H|(identity' & H & Htag)]; [done|].
      inversion H; subst. congruence.
  - split; [by left | done].
Qed.

(** C3, as the code has it.  For every identity record and every name,
    the inner loop appends the record to the identities to delete exactly
    when its tag map holds the key made of the prefix, an underscore and
    the name with a value that is not nil and equals owned; when the key is
    absent, or holds a value that is not nil and differs from owned, the
    list stays as it is and nothing fails; when the key holds a nil value,
    the loop dereferences it and panics.  Hence whenever the listing
    returns identities, they are exactly the listed ones that carry that
    key with the value owned; the listing panics exactly when a listed
    entry is nil or holds a nil value under the key; and it does return
    identities when no fetch fails and no such entry is listed. *)
Theorem ownership_filter name :
  let key := ownedAzureResourceTagKeyPrefix +:+ "_" +:+ name in
  (forall identity acc st,
     (selectOwned (ownedTagKey name) (Some identity) acc st
        = (Done (acc ++ [identity]), st) <->
      armmsi.Tags identity !! key = Some (Some "owned")) /\
     (armmsi.Tags identity !! key = None ->
      selectOwned (ownedTagKey name) (Some identity) acc st
        = (Done acc, st)) /\
     (forall v, armmsi.Tags identity !! key = Some (Some v) -> v <> "owned" ->
      selectOwned (ownedTagKey name) (Some identity) acc st
        = (Done acc, st)) /\
     (armmsi.Tags identity !! key = Some None ->
      selectOwned (ownedTagKey name) (Some identity) acc st
        = (Panicked, st))) /\
  (forall resourceGroupName pager st,
     let listing :=
       fst (listOwned resourceGroupName (ownedTagKey name) pager [] st) in
     (forall managedIdentities,
        listing = Done (inl managedIdentities) ->
        forall identity,
          In identity managedIdentities <->
          In (Some identity) (entries pager) /\
          armmsi.Tags identity !! key = Some (Some "owned")) /\
     (listing = Panicked <->
      exists entry,
        In entry (entries pager) /\
        (entry = None \/
         exists identity,
           entry = Some identity /\
           armmsi.Tags identity !! key = Some None)) /\
     (pagerError pager = None ->
      forallb (entryOk key) (entries pager) = true ->
      exists managedIdentities, listing = Done (inl managedIdentities))).
Proof.
  intros key. fold (ownedTagKey name) in key. split.
  - intros identity acc st. rewrite selectOwned_spec.
    unfold entryOk, owned, isOwned. simpl. fold key.
    assert (Hgrow : acc ++ [identity] <> acc).
    { intros H. apply (f_equal (@length _)) in H.
      rewrite length_app in H. simpl in H. lia. }
    split; [|split; [|split]].
    + destruct (armmsi.Tags identity !! key) as [[v|]|] eqn:E.
      * destruct (decide (v = ownedAzureResourceTagValue)) as [->|Hv].
        -- by rewrite bool_decide_eq_true_2.
        -- rewrite bool_decide_eq_false_2 by congruence.
           rewrite app_nil_r. unfold ownedAzureResourceTagValue in Hv.
           split; intros H; inversion H; congruence.
      * split; intros H; inversion H.
      * simpl. rewrite app_nil_r. split; intros H; inversion H; congruence.
    + intros ->. simpl. by rewrite app_nil_r.
    + intros v -> Hv. rewrite bool_decide_eq_false_2.
      * by rewrite app_nil_r.
      * unfold ownedAzureResourceTagValue. congruence.
    + by intros ->.
  - intros resourceGroupName pager st listing. subst listing key.
    rewrite listOwned_spec. simpl. rewrite listingResult_entries.
    set (key := ownedTagKey name).
    split; [|split].
    + intros ids Hl identity.
      destruct (forallb (entryOk key) (entries pager)); [|done].
      destruct (pagerError pager); [done|].
      inversion Hl; subst. simpl. rewrite In_owned. unfold isOwned.
      by rewrite bool_decide_eq_true.
    + destruct (forallb (entryOk key) (entries pager)) eqn:Hok.
      * split; [by destruct (pagerError pager)|].
        intros (entry & Hin & Hbad).
        apply (entryOk_false key) in Hbad.
        rewrite (forallb_In _ _ _ Hok Hin) in Hbad. done.
      * split; [|done]. intros _.
        apply forallb_false_In in Hok as (entry & Hin & Hbad).
        exists entry. split; [done|]. by apply entryOk_false.
    + intros -> ->. by eexists.
Qed.

(** C4. Discovery is all or nothing.  If a page fetch of
    [deleteManagedIdentities] fails, the function returns the error of that
    fetch, the failed fetch is its last call, and every call before it is
    a successful page fetch: no deletion is called for the identities
    collected from the earlier pages. *)
Theorem failed_fetch_discards_listing client name resourceGroupName
    subscriptionID region st ctx rg e :
  let run :=
    deleteManagedIdentities client name resourceGroupName subscriptionID
      region st in
  exists new,
    calls (snd run) = calls st ++ new /\
    (In (NextPageCall ctx rg (Some e)) new ->
     fst run = Done (Some e) /\
     exists pre,
       new = pre ++ [NextPageCall context_Background resourceGroupName
                       (Some e)] /\
       forallb fetched pre = true).
Proof.
  intros run. subst run.
  destruct (deleteManagedIdentities _ _ _ _ _ st) as [r st'] eqn:E. simpl.
  apply deleteManagedIdentities_run in E as (_ & new & Hcalls & Hrun).
  exists new. split; [done|]. intros Hin.
  apply IdentitiesRun_shape in Hrun
    as [[Hq _]|(pre & e0 & -> & Hq & [[-> Hf]|[name0 ->]])];
    locate_call Hq Hin.
  inversion Heq; subst. split; [done|]. by exists pre.
Qed.

(** C5. An empty discovery is a success.  When the listing loop completes
    with nothing collected, [deleteManagedIdentities] returns nil, its
    calls are the successful page fetches only, and it logs one line that
    tells no owned identity was found; [deleteCmd], on its fine-grained
    path, then goes on to call the storage-account deletion. *)
Theorem empty_discovery_is_success :
  (forall client name resourceGroupName subscriptionID region st,
     fst (listOwned resourceGroupName (ownedTagKey name)
            (NewListByResourceGroupPager (UserAssignedIdentities client)
               (calls st) resourceGroupName) [] st) = Done (inl []) ->
     exists fetches,
       deleteManagedIdentities client name resourceGroupName subscriptionID
         region st =
       (Done None,
        addLogs ["Found no user-assigned managed identities with tag key="
                 +:+ ownedTagKey name +:+ ", value=owned"]
          (addCalls fetches st)) /\
       forallb fetched fetches = true) /\
  (forall validate env st cred client,
     let o := DeleteOpts st in
     let group := effectiveGroup o in
     NewDefaultAzureCredential env = inl cred ->
     NewAzureClientWrapper env (SubscriptionID o) cred = inl client ->
     validate (effectiveAccount o) = None ->
     DeleteOIDCResourceGroup o = false ->
     fst (listOwned group (ownedTagKey (Name o))
            (NewListByResourceGroupPager (UserAssignedIdentities client)
               (calls st) group) [] st) = Done (inl []) ->
     exists fetches res,
       calls (snd (deleteCmd validate env st)) =
         calls st ++ fetches ++
         [StorageDeleteCall context_Background group (effectiveAccount o) res]
       /\ forallb fetched fetches = true
       /\ fst (deleteCmd validate env st) =
          match res with None => Done tt | Some _ => Exited 1 end).
Proof.
  assert (Hfun : forall client name resourceGroupName subscriptionID region st,
     listingResult (ownedTagKey name)
       (NewListByResourceGroupPager (UserAssignedIdentities client)
          (calls st) resourceGroupName) [] = Done (inl []) ->
     deleteManagedIdentities client name resourceGroupName subscriptionID
       region st =
     (Done None,
      addLogs ["Found no user-assigned managed identities with tag key="
               +:+ ownedTagKey name +:+ ", value=owned"]
        (addCalls (listingCalls resourceGroupName (ownedTagKey name)
                     (NewListByResourceGroupPager
                        (UserAssignedIdentities client) (calls st)
                        resourceGroupName)) st)) /\
     forallb fetched
       (listingCalls resourceGroupName (ownedTagKey name)
          (NewListByResourceGroupPager (UserAssignedIdentities client)
             (calls st) resourceGroupName)) = true).
  { intros client name resourceGroupName subscriptionID region st Hl.
    rewrite deleteManagedIdentities_spec. cbv zeta. rewrite Hl.
    split; [done|].
    pose proof (listingCalls_shape resourceGroupName (ownedTagKey name)
                  (NewListByResourceGroupPager (UserAssignedIdentities client)
                     (calls st) resourceGroupName) []) as Hshape.
    by rewrite Hl in Hshape. }
  split.
  - intros client name resourceGroupName subscriptionID region st Hl.
    rewrite listOwned_spec in Hl. simpl in Hl.
    eexists. by apply Hfun.
  - intros validate env st cred client o group Hcred Hclient Hvalid Hflag Hl.
    subst o group. rewrite listOwned_spec in Hl. simpl in Hl.
    rewrite deleteCmd_spec, Hcred, Hclient, Hvalid, Hflag.
    unfold fineGrainedDelete. unfold mbind, M_bind, readOpt.
    destruct (defaulted_others st) as (HName & _). simpl in HName.
    rewrite defaulted_group, HName.
    destruct (Hfun client (Name (DeleteOpts st))
                (effectiveGroup (DeleteOpts st))
                (SubscriptionID (DeleteOpts (defaulted st)))
                (Region (DeleteOpts (defaulted st))) (defaulted st))
      as [-> Hf]; [by rewrite defaulted_calls|].
    rewrite defaulted_calls in *.
    unfold mret, M_ret. rewrite deleteStorageAccount_spec. cbv zeta.
    simpl. rewrite defaulted_group, defaulted_account, defaulted_calls.
    set (res := StorageDelete _ _ _ _ _).
    exists (listingCalls (effectiveGroup (DeleteOpts st))
              (ownedTagKey (Name (DeleteOpts st)))
              (NewListByResourceGroupPager (UserAssignedIdentities client)
                 (calls st) (effectiveGroup (DeleteOpts st)))), res.
    destruct res; simpl; rewrite defaulted_calls, <- app_assoc; done.
Qed.

(** C6. Defaults of the two names.  Once the client is built, the options
    [deleteCmd] leaves behind have the resource-group name set to the name
    followed by the suffix when it was empty, the storage-account name set
    to the name when it was empty, and either of them kept as given when
    it was not empty; the other options are unchanged. *)
Theorem names_default_from_name validate env st cred client :
  let o := DeleteOpts st in
  let o' := DeleteOpts (snd (deleteCmd validate env st)) in
  NewDefaultAzureCredential env = inl cred ->
  NewAzureClientWrapper env (SubscriptionID o) cred = inl client ->
  (OIDCResourceGroupName o = "" ->
   OIDCResourceGroupName o' = Name o +:+ oidcResourceGroupSuffix) /\
  (OIDCResourceGroupName o <> "" ->
   OIDCResourceGroupName o' = OIDCResourceGroupName o) /\
  (StorageAccountName o = "" -> StorageAccountName o' = Name o) /\
  (StorageAccountName o <> "" ->
   StorageAccountName o' = StorageAccountName o) /\
  Name o' = Name o /\ Region o' = Region o /\
  SubscriptionID o' = SubscriptionID o /\
  DeleteOIDCResourceGroup o' = DeleteOIDCResourceGroup o /\
  DryRun o' = DryRun o.
Proof.
  intros o o' Hcred Hclient. subst o o'.
  rewrite (deleteCmd_opts _ _ _ _ _ Hcred Hclient).
  rewrite defaulted_group, defaulted_account.
  unfold effectiveGroup, effectiveAccount.
  split; [by intros ->|]. split; [intros Hne; by case_decide|].
  split; [by intros ->|]. split; [intros Hne; by case_decide|].
  apply defaulted_others.
Qed.

(** C7, as the code has it.  When the polling of the resource-group
    deletion fails, [deleteResourceGroup] returns the error of the poll as
    it is, with nothing wrapped around it, and logs nothing; it polls once,
    asking for a frequency of ten seconds, under a context that has no
    deadline.  Only a failure to begin the deletion is wrapped, with a
    fixed text that does not name the resource group. *)
Theorem poll_error_is_returned_untouched client resourceGroupName st :
  let began := BeginDeleteCall context_Background resourceGroupName None in
  (forall pollerResp e,
     BeginDelete (ResourceGroups client) (calls st) context_Background
       resourceGroupName = inl pollerResp ->
     PollUntilDone pollerResp (calls st ++ [began]) context_Background
       10000000000 = Some e ->
     deleteResourceGroup client resourceGroupName st =
     (Done (Some e),
      addCalls [began; PollUntilDoneCall context_Background (10 * time_Second)
                         (Some e)] st)) /\
  (forall e,
     BeginDelete (ResourceGroups client) (calls st) context_Background
       resourceGroupName = inr e ->
     deleteResourceGroup client resourceGroupName st =
     (Done (Some (WithMessage e "failed to delete resource group")),
      addCalls [BeginDeleteCall context_Background resourceGroupName (Some e)]
        st)) /\
  10 * time_Second = 10000000000 /\
  Deadline context_Background = None.
Proof.
  intros began. split; [|split; [|done]].
  - intros pollerResp e Hbegin Hpoll.
    rewrite deleteResourceGroup_spec, Hbegin. cbv zeta.
    fold began. change (10 * time_Second) with 10000000000.
    by rewrite Hpoll.
  - intros e Hbegin. by rewrite deleteResourceGroup_spec, Hbegin.
Qed.

(** C8. [DryRun] does not interfere.  From two states with the same calls
    and log lines whose options differ at most in [DryRun], [deleteCmd]
    ends with the same outcome, the same calls and the same log lines, and
    options that still differ at most in [DryRun].  The flag is declared by
    [NewDeleteCmd], and a run with [DryRun] set does delete: the sample
    run deletes two identities and the storage account. *)
Theorem dry_run_is_not_consulted validate env st1 st2 :
  sameButDryRun (DeleteOpts st1) (DeleteOpts st2) ->
  calls st1 = calls st2 ->
  logs st1 = logs st2 ->
  let run1 := deleteCmd validate env st1 in
  let run2 := deleteCmd validate env st2 in
  fst run1 = fst run2 /\
  calls (snd run1) = calls (snd run2) /\
  logs (snd run1) = logs (snd run2) /\
  sameButDryRun (DeleteOpts (snd run1)) (DeleteOpts (snd run2)) /\
  In {| flagName := "dry-run"; flagVar := BoolVar setDryRun false;
        flagRequired := false |} NewDeleteCmd /\
  calls
    (snd (deleteCmd validateStorageAccountName
            (Sample.env
               (Sample.client Sample.twoPages (fun _ => None) None None None))
            (Sample.start (Sample.opts "cluster1" "" "" false true)))) =
  [NextPageCall context_Background "cluster1-oidc" None;
   NextPageCall context_Background "cluster1-oidc" None;
   IdentityDeleteCall context_Background "cluster1-oidc" "a" None;
   IdentityDeleteCall context_Background "cluster1-oidc" "c" None;
   StorageDeleteCall context_Background "cluster1-oidc" "cluster1" None].
Proof.
  intros Ho Hc Hl run1 run2. subst run1 run2.
  destruct (blind_deleteCmd validate env st1 st2) as (Hr & Ho' & Hc' & Hl');
    [done|].
  split; [done|]. split; [done|]. split; [done|]. split; [done|].
  split; [|by vm_compute].
  simpl. tauto.
Qed.



(** C10. The region and the subscription do not interfere.  Whatever the
    two last arguments of [deleteManagedIdentities], its outcome, its calls
    and the state it leaves are the same; yet [NewDeleteCmd] marks both
    flags, with the name, as required. *)
Theorem region_and_subscription_are_ignored client name resourceGroupName
    subscriptionID1 region1 subscriptionID2 region2 st :
  deleteManagedIdentities client name resourceGroupName subscriptionID1
    region1 st =
  deleteManagedIdentities client name resourceGroupName subscriptionID2
    region2 st /\
  requiredFlags NewDeleteCmd = ["name"; "region"; "subscription-id"].
Proof. split; reflexivity. Qed.

(** * Sample runs *)

Lemma group_delete_is_exclusive_witness :
  DeleteOIDCResourceGroup (DeleteOpts Sample.groupStart) = true /\
  exists new,
    calls (snd (deleteCmd validateStorageAccountName
                  (Sample.env (Sample.happy Sample.twoPages))
                  Sample.groupStart)) = calls Sample.groupStart ++ new /\
    existsb fineGrained new = false.
Proof.
  split; [reflexivity|].
  destruct (group_delete_is_exclusive validateStorageAccountName
              (Sample.env (Sample.happy Sample.twoPages)) Sample.groupStart)
    as (new & Hcalls & Hnone & _); [reflexivity|].
  exists new. split; assumption.
Defined.

Lemma identities_before_storage_witness :
  DeleteOIDCResourceGroup (DeleteOpts Sample.fineStart) = false /\
  fst (deleteCmd validateStorageAccountName
         (Sample.env (Sample.noDelete Sample.twoPages)) Sample.fineStart)
    = Exited 1 /\
  exists fetches deletes,
    calls (snd (deleteCmd validateStorageAccountName
                  (Sample.env (Sample.happy Sample.twoPages))
                  Sample.fineStart)) =
    fetches ++ deletes ++
    [StorageDeleteCall context_Background "cluster1-oidc" "cluster1" None] /\
    forallb fetched fetches = true /\ forallb deleted deletes = true.
Proof.
  split; [reflexivity|]. split.
  - destruct (identities_before_storage validateStorageAccountName
                (Sample.env (Sample.noDelete Sample.twoPages))
                Sample.fineStart)
      as (new & Hcalls & _ & Hfail); [reflexivity|].
    apply (Hfail context_Background "cluster1-oidc" "a" Sample.boom).
    vm_compute in Hcalls. rewrite <- Hcalls. right; right; left. reflexivity.
  - destruct (identities_before_storage validateStorageAccountName
                (Sample.env (Sample.happy Sample.twoPages)) Sample.fineStart)
      as (new & Hcalls & Hstorage & _); [reflexivity|].
    destruct (Hstorage context_Background "cluster1-oidc" "cluster1" None)
      as (fetches & deletes & ids & Hnew & Hf & Hd & _).
    + vm_compute in Hcalls. rewrite <- Hcalls.
      do 4 right. left. reflexivity.
    + exists fetches, deletes. rewrite Hcalls, Hnew.
      split; [reflexivity|]. split; [exact Hf|].
      exact (deletionOf_deleted _ _ _ Hd).
Defined.

Lemma ownership_filter_witness :
  (selectOwned (ownedTagKey "cluster1")
     (Some (Sample.identity "a" (Sample.tagged "cluster1" (Some "owned"))))
     [] Sample.fineStart
   = (Done [Sample.identity "a" (Sample.tagged "cluster1" (Some "owned"))],
      Sample.fineStart)) /\
  (selectOwned (ownedTagKey "cluster1")
     (Some (Sample.identity "b" (Sample.tagged "other" (Some "owned"))))
     [] Sample.fineStart = (Done [], Sample.fineStart)) /\
  (selectOwned (ownedTagKey "cluster1")
     (Some (Sample.identity "a" (Sample.tagged "cluster1" (Some "mine"))))
     [] Sample.fineStart = (Done [], Sample.fineStart)) /\
  (selectOwned (ownedTagKey "cluster1")
     (Some (Sample.identity "a" (Sample.tagged "cluster1" None)))
     [] Sample.fineStart = (Panicked, Sample.fineStart)) /\
  (exists managedIdentities,
     fst (listOwned "cluster1-oidc" (ownedTagKey "cluster1") Sample.twoPages
            [] Sample.fineStart) = Done (inl managedIdentities) /\
     forall identity,
       In identity managedIdentities <->
       In (Some identity) (entries Sample.twoPages) /\
       armmsi.Tags identity
         !! (ownedAzureResourceTagKeyPrefix +:+ "_" +:+ "cluster1")
         = Some (Some "owned")) /\
  fst (listOwned "cluster1-oidc" (ownedTagKey "cluster1") Sample.nilTagPage
         [] Sample.fineStart) = Panicked.
Proof.
  pose proof (ownership_filter "cluster1") as [Hrecord Hlisting].
  split; [|split; [|split; [|split; [|split]]]].
  - apply (proj1 (Hrecord _ [] Sample.fineStart)). vm_compute; reflexivity.
  - apply (proj1 (proj2 (Hrecord _ [] Sample.fineStart))).
    vm_compute; reflexivity.
  - apply (proj1 (proj2 (proj2 (Hrecord _ [] Sample.fineStart))) "mine");
      [vm_compute; reflexivity | discriminate].
  - apply (proj2 (proj2 (proj2 (Hrecord _ [] Sample.fineStart)))).
    vm_compute; reflexivity.
  - destruct (Hlisting "cluster1-oidc" Sample.twoPages Sample.fineStart)
      as (Hiff & _ & Hex).
    destruct Hex as [ids Hids];
      [reflexivity | vm_compute; reflexivity |].
    exists ids. split; [exact Hids | exact (Hiff ids Hids)].
  - apply (proj1 (proj2 (Hlisting "cluster1-oidc" Sample.nilTagPage
                           Sample.fineStart))).
    exists (Some (Sample.identity "a" (Sample.tagged "cluster1" None))).
    split; [left; reflexivity|]. right. eexists. split; [reflexivity|].
    vm_compute; reflexivity.
Defined.

(** C3, counterexample.  A key present with a nil value is neither owned
    nor passed over in silence: the inner loop dereferences the value and
    panics, so it is not true that every value other than owned leaves the
    list as it is without a failure. *)
Lemma nil_tag_value_is_dereferenced :
  armmsi.Tags (Sample.identity "a" (Sample.tagged "cluster1" None))
    !! (ownedAzureResourceTagKeyPrefix +:+ "_" +:+ "cluster1") = Some None /\
  selectOwned (ownedTagKey "cluster1")
    (Some (Sample.identity "a" (Sample.tagged "cluster1" None))) []
    Sample.fineStart = (Panicked, Sample.fineStart) /\
  fst (deleteManagedIdentities (Sample.happy Sample.nilTagPage) "cluster1"
         "cluster1-oidc" "sub" "eastus" Sample.fineStart) = Panicked /\
  ~ (forall identity name acc st,
       armmsi.Tags identity
         !! (ownedAzureResourceTagKeyPrefix +:+ "_" +:+ name)
         <> Some (Some "owned") ->
       selectOwned (ownedTagKey name) (Some identity) acc st
         = (Done acc, st)).
Proof.
  split; [vm_compute; reflexivity|]. split; [vm_compute; reflexivity|].
  split; [vm_compute; reflexivity|].
  intros H.
  specialize (H (Sample.identity "a" (Sample.tagged "cluster1" None))
                "cluster1" [] Sample.fineStart).
  assert (Hp : selectOwned (ownedTagKey "cluster1")
                 (Some (Sample.identity "a" (Sample.tagged "cluster1" None)))
                 [] Sample.fineStart = (Panicked, Sample.fineStart))
    by (vm_compute; reflexivity).
  rewrite Hp in H. 
  assert (Hne : armmsi.Tags
                  (Sample.identity "a" (Sample.tagged "cluster1" None))
                  !! (ownedAzureResourceTagKeyPrefix +:+ "_" +:+ "cluster1")
                <> Some (Some "owned"))
    by (vm_compute; discriminate).
  specialize (H Hne). discriminate H.
Qed.

Lemma failed_fetch_discards_listing_witness :
  In (NextPageCall context_Background "cluster1-oidc" (Some Sample.boom))
    (calls (snd (deleteManagedIdentities
                   (Sample.happy Sample.failsOnSecondPage) "cluster1"
                   "cluster1-oidc" "sub" "eastus" Sample.fineStart))) /\
  fst (deleteManagedIdentities (Sample.happy Sample.failsOnSecondPage)
         "cluster1" "cluster1-oidc" "sub" "eastus" Sample.fineStart)
    = Done (Some Sample.boom).
Proof.
  split; [vm_compute; right; left; reflexivity|].
  destruct (failed_fetch_discards_listing
              (Sample.happy Sample.failsOnSecondPage) "cluster1"
              "cluster1-oidc" "sub" "eastus" Sample.fineStart
              context_Background "cluster1-oidc" Sample.boom)
    as (new & Hcalls & Hfail).
  apply Hfail. vm_compute in Hcalls. rewrite <- Hcalls.
  right; left; reflexivity.
Defined.

Lemma empty_discovery_is_success_witness :
  fst (listOwned "cluster1-oidc" (ownedTagKey "cluster1") Sample.foreignOnly
         [] Sample.fineStart) = Done (inl []) /\
  validateStorageAccountName "cluster1" = None /\
  (exists fetches,
     deleteManagedIdentities (Sample.happy Sample.foreignOnly) "cluster1"
       "cluster1-oidc" "sub" "eastus" Sample.fineStart =
     (Done None,
      addLogs ["Found no user-assigned managed identities with tag key="
               +:+ ownedTagKey "cluster1" +:+ ", value=owned"]
        (addCalls fetches Sample.fineStart)) /\
     forallb fetched fetches = true) /\
  (exists fetches res,
     calls (snd (deleteCmd validateStorageAccountName
                   (Sample.env (Sample.happy Sample.foreignOnly))
                   Sample.fineStart)) =
       calls Sample.fineStart ++ fetches ++
       [StorageDeleteCall context_Background "cluster1-oidc" "cluster1" res]
     /\ forallb fetched fetches = true
     /\ fst (deleteCmd validateStorageAccountName
               (Sample.env (Sample.happy Sample.foreignOnly))
               Sample.fineStart) =
        match res with None => Done tt | Some _ => Exited 1 end).
Proof.
  split; [vm_compute; reflexivity|]. split; [vm_compute; reflexivity|].
  split.
  - apply (proj1 empty_discovery_is_success
             (Sample.happy Sample.foreignOnly) "cluster1" "cluster1-oidc"
             "sub" "eastus" Sample.fineStart).
    vm_compute; reflexivity.
  - apply (proj2 empty_discovery_is_success validateStorageAccountName
             (Sample.env (Sample.happy Sample.foreignOnly)) Sample.fineStart
             {| azidentity.tenantID := "t" |}
             (Sample.happy Sample.foreignOnly));
      vm_compute; reflexivity.
Defined.

Lemma names_default_from_name_witness :
  (OIDCResourceGroupName
     (DeleteOpts
        (snd (deleteCmd validateStorageAccountName
                (Sample.env (Sample.happy Sample.twoPages))
                Sample.fineStart))) = "cluster1-oidc" /\
   StorageAccountName
     (DeleteOpts
        (snd (deleteCmd validateStorageAccountName
                (Sample.env (Sample.happy Sample.twoPages))
                Sample.fineStart))) = "cluster1") /\
  (OIDCResourceGroupName
     (DeleteOpts
        (snd (deleteCmd validateStorageAccountName
                (Sample.env (Sample.happy Sample.twoPages))
                Sample.explicitStart))) = "mygroup" /\
   StorageAccountName
     (DeleteOpts
        (snd (deleteCmd validateStorageAccountName
                (Sample.env (Sample.happy Sample.twoPages))
                Sample.explicitStart))) = "myaccount").
Proof.
  split.
  - destruct (names_default_from_name validateStorageAccountName
                (Sample.env (Sample.happy Sample.twoPages)) Sample.fineStart
                {| azidentity.tenantID := "t" |}
                (Sample.happy Sample.twoPages))
      as (Hgroup & _ & Haccount & _); [reflexivity | reflexivity |].
    split; [apply Hgroup | apply Haccount]; reflexivity.
  - destruct (names_default_from_name validateStorageAccountName
                (Sample.env (Sample.happy Sample.twoPages))
                Sample.explicitStart
                {| azidentity.tenantID := "t" |}
                (Sample.happy Sample.twoPages))
      as (_ & Hgroup & _ & Haccount & _); [reflexivity | reflexivity |].
    split; [apply Hgroup | apply Haccount]; vm_compute; discriminate.
Defined.

Lemma poll_error_is_returned_untouched_witness :
  deleteResourceGroup Sample.pollFails "cluster1-oidc" Sample.groupStart =
  (Done (Some Sample.boom),
   addCalls
     [BeginDeleteCall context_Background "cluster1-oidc" None;
      PollUntilDoneCall context_Background (10 * time_Second)
        (Some Sample.boom)] Sample.groupStart) /\
  deleteResourceGroup Sample.beginFails "cluster1-oidc" Sample.groupStart =
  (Done (Some (WithMessage Sample.boom "failed to delete resource group")),
   addCalls
     [BeginDeleteCall context_Background "cluster1-oidc" (Some Sample.boom)]
     Sample.groupStart).
Proof.
  split.
  - apply (proj1 (poll_error_is_returned_untouched Sample.pollFails
                    "cluster1-oidc" Sample.groupStart)
             {| PollUntilDone := fun _ _ _ => Some Sample.boom |});
      reflexivity.
  - apply (proj1 (proj2 (poll_error_is_returned_untouched Sample.beginFails
                           "cluster1-oidc" Sample.groupStart)));
      reflexivity.
Defined.

(** C7, counterexample.  The error of a failed poll comes back bare: it is
    not the poll error wrapped in a context, whatever the text. *)
Lemma poll_error_is_not_wrapped :
  fst (deleteResourceGroup Sample.pollFails "cluster1-oidc" Sample.groupStart)
    = Done (Some Sample.boom) /\
  ~ exists message,
      fst (deleteResourceGroup Sample.pollFails "cluster1-oidc"
             Sample.groupStart)
        = Done (Some (errors_Wrap Sample.boom message)).
Proof.
  split; [reflexivity|]. intros [message H]. vm_compute in H. discriminate H.
Qed.

Lemma dry_run_is_not_consulted_witness :
  sameButDryRun (DeleteOpts Sample.dryStart) (DeleteOpts Sample.fineStart) /\
  DryRun (DeleteOpts Sample.dryStart) = true /\
  DryRun (DeleteOpts Sample.fineStart) = false /\
  fst (deleteCmd validateStorageAccountName
         (Sample.env (Sample.happy Sample.twoPages)) Sample.dryStart) =
  fst (deleteCmd validateStorageAccountName
         (Sample.env (Sample.happy Sample.twoPages)) Sample.fineStart) /\
  calls (snd (deleteCmd validateStorageAccountName
                (Sample.env (Sample.happy Sample.twoPages)) Sample.dryStart)) =
  calls (snd (deleteCmd validateStorageAccountName
                (Sample.env (Sample.happy Sample.twoPages))
                Sample.fineStart)).
Proof.
  assert (Hsame : sameButDryRun (DeleteOpts Sample.dryStart)
                    (DeleteOpts Sample.fineStart))
    by (vm_compute; repeat split; reflexivity).
  split; [exact Hsame|]. split; [reflexivity|]. split; [reflexivity|].
  destruct (dry_run_is_not_consulted validateStorageAccountName
              (Sample.env (Sample.happy Sample.twoPages))
              Sample.dryStart Sample.fineStart)
    as (Hr & Hc & _); [exact Hsame | reflexivity | reflexivity |].
  split; assumption.
Defined.




(** * More of the deletion logic *)

(** ** The deletion loop, call by call *)

Lemma addLogs_nil st : addLogs [] st = st.
Proof. destruct st. unfold addLogs. simpl. by rewrite app_nil_r. Qed.

Lemma addCalls_nil st : addCalls [] st = st.
Proof. destruct st. unfold addCalls. simpl. by rewrite app_nil_r. Qed.

Lemma deletionOf_app resourceGroupName done oks identity name :
  Forall2 (deletionOf resourceGroupName) done oks ->
  armmsi.Name identity = Some name ->
  Forall2 (deletionOf resourceGroupName) (identity :: done)
    (IdentityDeleteCall context_Background resourceGroupName name None :: oks).
Proof. intros H Hn. constructor; [by exists name | done]. Qed.

(** The loop deletes a prefix of its list, one successful call and one
    log line per identity, and stops at the first identity whose deletion
    fails or that lacks a pointer. *)
Lemma deleteEach_prefix client resourceGroupName managedIdentities st :
  exists done rest oks lines tail,
    managedIdentities = done ++ rest /\
    Forall2 (deletionOf resourceGroupName) done oks /\
    Forall2 loggedAs done lines /\
    snd (deleteEach client resourceGroupName managedIdentities st) =
      addLogs lines (addCalls (oks ++ tail) st) /\
    match fst (deleteEach client resourceGroupName managedIdentities st) with
    | Done None => rest = [] /\ tail = []
    | Done (Some e) =>
        exists identity rest' name,
          rest = identity :: rest' /\ armmsi.Name identity = Some name /\
          tail = [IdentityDeleteCall context_Background resourceGroupName
                    name (Some e)]
    | Panicked =>
        exists identity rest',
          rest = identity :: rest' /\
          ((armmsi.Name identity = None /\ tail = []) \/
           (exists name,
              armmsi.Name identity = Some name /\
              (armmsi.Type' identity = None \/ armmsi.ID identity = None) /\
              tail = [IdentityDeleteCall context_Background resourceGroupName
                        name None]))
    | Exited _ => False
    end.
Proof.
  assert (Hid : forall s, addLogs [] (addCalls [] s) = s)
    by (intros s; by rewrite addLogs_nil, addCalls_nil).
  revert st. induction managedIdentities as [|identity ids IH]; intros st.
  - exists [], [], [], [], []. simpl. rewrite Hid.
    split; [done|]. split; [constructor|]. split; [constructor|]. done.
  - simpl. unfold_M.
    destruct (armmsi.Name identity) as [name|] eqn:EName.
    2:{ exists [], (identity :: ids), [], [], []. simpl. rewrite Hid.
        split; [done|]. split; [constructor|]. split; [constructor|].
        split; [done|]. exists identity, ids. split; [done|]. by left. }
    simpl.
    destruct (Delete (UserAssignedIdentities client) (calls st)
                context_Background resourceGroupName name) as [e|] eqn:EDel.
    { exists [], (identity :: ids), [], [],
        [IdentityDeleteCall context_Background resourceGroupName name
           (Some e)].
      simpl. split; [done|]. split; [constructor|]. split; [constructor|].
      split; [by rewrite addLogs_nil|]. by exists identity, ids, name. }
    assert (Hstop : armmsi.Type' identity = None \/
                    armmsi.ID identity = None ->
      exists identity0 rest',
        identity :: ids = identity0 :: rest' /\
        ((armmsi.Name identity0 = None /\
          [IdentityDeleteCall context_Background resourceGroupName name None]
            = []) \/
         (exists name0,
            armmsi.Name identity0 = Some name0 /\
            (armmsi.Type' identity0 = None \/
             armmsi.ID identity0 = None) /\
            [IdentityDeleteCall context_Background resourceGroupName name
               None] =
            [IdentityDeleteCall context_Background resourceGroupName name0
               None]))).
    { intros Hnil. exists identity, ids. split; [done|]. right.
      by exists name. }
    destruct (armmsi.Type' identity) as [type|] eqn:EType.
    2:{ exists [], (identity :: ids), [], [],
          [IdentityDeleteCall context_Background resourceGroupName name None].
        simpl. split; [done|]. split; [constructor|]. split; [constructor|].
        split; [by rewrite addLogs_nil|]. apply Hstop. by left. }
    destruct (armmsi.ID identity) as [id|] eqn:EID.
    2:{ exists [], (identity :: ids), [], [],
          [IdentityDeleteCall context_Background resourceGroupName name None].
        simpl. split; [done|]. split; [constructor|]. split; [constructor|].
        split; [by rewrite addLogs_nil|]. apply Hstop. by right. }
    clear Hstop. simpl.
    destruct (IH (addLogs ["Deleted " +:+ type +:+ " " +:+ id]
                    (addCalls
                       [IdentityDeleteCall context_Background
                          resourceGroupName name None] st)))
      as (done & rest & oks & lines & tail & Hids & Hoks & Hlines & Hst & Hr).
    exists (identity :: done), rest,
      (IdentityDeleteCall context_Background resourceGroupName name None
         :: oks),
      (("Deleted " +:+ type +:+ " " +:+ id) :: lines), tail.
    split; [by rewrite Hids|].
    split; [by apply deletionOf_app|].
    split; [constructor; [by exists type, id | done]|].
    split; [|done].
    rewrite Hst. unfold addLogs, addCalls. simpl.
    by rewrite <- !app_assoc.
Qed.

(** ** deleteManagedIdentities, call by call *)

Lemma listingCalls_fetches resourceGroupName key pager c :
  In c (listingCalls resourceGroupName key pager) ->
  exists res, c = NextPageCall context_Background resourceGroupName res.
Proof.
  induction pager as [err|page|page rest IH]; simpl.
  - intros [<-|[]]. by eexists.
  - intros [<-|[]]. by eexists.
  - intros [<-|Hin]; [by eexists|].
    destruct (forallb (entryOk key) page); [by apply IH | done].
Qed.

Lemma listingResult_owned key pager managedIdentities :
  listingResult key pager [] = Done (inl managedIdentities) ->
  pagerError pager = None /\
  forallb (entryOk key) (entries pager) = true /\
  managedIdentities = owned key (entries pager).
Proof.
  rewrite listingResult_entries.
  destruct (forallb (entryOk key) (entries pager)); [|done].
  destruct (pagerError pager); [done|].
  intros H. inversion H. done.
Qed.

Lemma deletionOf_In resourceGroupName done oks c :
  Forall2 (deletionOf resourceGroupName) done oks -> In c oks ->
  exists identity name,
    In identity done /\ armmsi.Name identity = Some name /\
    c = IdentityDeleteCall context_Background resourceGroupName name None.
Proof.
  induction 1 as [|identity c0 ids cs (name & Hname & ->) _ IH]; [done|].
  intros [<-|Hin].
  - exists identity, name. split; [by left | done].
  - destruct (IH Hin) as (identity' & name' & Hin' & Hrest).
    exists identity', name'. split; [by right | done].
Qed.

(** The calls of the deletion loop are deletions, in the resource group
    given, of identities of its list, by their names. *)
Lemma deleteEach_calls client resourceGroupName managedIdentities st :
  exists dels,
    calls (snd (deleteEach client resourceGroupName managedIdentities st)) =
      calls st ++ dels /\
    forall c, In c dels ->
      exists identity name res,
        In identity managedIdentities /\
        armmsi.Name identity = Some name /\
        c = IdentityDeleteCall context_Background resourceGroupName name res.
Proof.
  destruct (deleteEach_prefix client resourceGroupName managedIdentities st)
    as (done & rest & oks & lines & tail & Hids & Hoks & _ & Hst & Hr).
  exists (oks ++ tail). rewrite Hst. split; [done|].
  intros c Hin. apply in_app_or in Hin as [Hin|Hin].
  - destruct (deletionOf_In _ _ _ _ Hoks Hin) as (identity & name & Hd & Hn & ->).
    exists identity, name, None. rewrite Hids.
    split; [apply in_or_app; by left | done].
  - assert (Hhead : forall identity rest', rest = identity :: rest' ->
              In identity managedIdentities).
    { intros identity rest' ->. rewrite Hids. apply in_or_app. right.
      by left. }
    destruct (fst (deleteEach client resourceGroupName managedIdentities st))
      as [[e|]| |code].
    + destruct Hr as (identity & rest' & name & Hrest & Hn & ->).
      destruct Hin as [<-|[]]. exists identity, name, (Some e).
      split; [by eapply Hhead | done].
    + destruct Hr as [_ ->]. done.
    + destruct Hr as (identity & rest' & Hrest & [[_ ->]|(name & Hn & _ & ->)]);
        [done|].
      destruct Hin as [<-|[]]. exists identity, name, None.
      split; [by eapply Hhead | done].
    + done.
Qed.

(** The calls of [deleteManagedIdentities] are the page fetches of the
    listing, then deletions of owned entries of the listing. *)
Lemma deleteManagedIdentities_calls client name resourceGroupName
    subscriptionID region st :
  let key := ownedTagKey name in
  let pager :=
    NewListByResourceGroupPager (UserAssignedIdentities client) (calls st)
      resourceGroupName in
  exists dels,
    calls (snd (deleteManagedIdentities client name resourceGroupName
                  subscriptionID region st)) =
      calls st ++ listingCalls resourceGroupName key pager ++ dels /\
    forall c, In c dels ->
      exists identity name res,
        In identity (owned key (entries pager)) /\
        armmsi.Name identity = Some name /\
        c = IdentityDeleteCall context_Background resourceGroupName name res.
Proof.
  intros key pager. rewrite deleteManagedIdentities_spec. cbv zeta.
  fold key pager.
  destruct (listingResult key pager []) as [[ids|e]| |code] eqn:El;
    try (exists []; simpl; rewrite app_nil_r; split; done).
  destruct ids as [|identity ids];
    [exists []; simpl; rewrite app_nil_r; split; done|].
  apply listingResult_owned in El as (_ & _ & Hids).
  destruct (deleteEach_calls client resourceGroupName (identity :: ids)
              (addCalls (listingCalls resourceGroupName key pager) st))
    as (dels & Hcalls & Hdels).
  exists dels. rewrite Hcalls. simpl. rewrite <- app_assoc.
  split; [done|]. by rewrite <- Hids.
Qed.

(** X1. Only owned identities are deleted.  Whatever the collaborators
    answer, every identity deletion [deleteManagedIdentities] calls is made
    in the resource group it was given, under the background context, by
    the name of a listed identity that carries the owned tag of the name
    given: an identity that is not tagged for this name is never passed to
    Delete. *)
Theorem only_owned_identities_are_deleted client name resourceGroupName
    subscriptionID region st :
  exists new,
    calls (snd (deleteManagedIdentities client name resourceGroupName
                  subscriptionID region st)) = calls st ++ new /\
    forall ctx rg resourceName res,
      In (IdentityDeleteCall ctx rg resourceName res) new ->
      ctx = context_Background /\ rg = resourceGroupName /\
      exists identity,
        In (Some identity)
          (entries (NewListByResourceGroupPager
                      (UserAssignedIdentities client) (calls st)
                      resourceGroupName)) /\
        armmsi.Tags identity
          !! (ownedAzureResourceTagKeyPrefix +:+ "_" +:+ name)
          = Some (Some "owned") /\
        armmsi.Name identity = Some resourceName.
Proof.
  destruct (deleteManagedIdentities_calls client name resourceGroupName
              subscriptionID region st) as (dels & Hcalls & Hdels).
  eexists. split; [exact Hcalls|].
  intros ctx rg resourceName res Hin.
  apply in_app_or in Hin as [Hin|Hin].
  - apply listingCalls_fetches in Hin as [res' H]. done.
  - destruct (Hdels _ Hin) as (identity & n & res' & Hown & Hn & Heq).
    inversion Heq; subst. split; [done|]. split; [done|].
    apply In_owned in Hown as [Hentry Htag].
    exists identity. split; [done|]. split; [|done].
    unfold isOwned in Htag. by apply bool_decide_eq_true in Htag.
Qed.

Lemma deleteManagedIdentities_nil client name resourceGroupName
    subscriptionID region st st' :
  let key := ownedTagKey name in
  let pager :=
    NewListByResourceGroupPager (UserAssignedIdentities client) (calls st)
      resourceGroupName in
  deleteManagedIdentities client name resourceGroupName subscriptionID region
    st = (Done None, st') ->
  pagerError pager = None /\
  forallb (entryOk key) (entries pager) = true /\
  exists fetches deletes,
    calls st' = calls st ++ fetches ++ deletes /\
    forallb fetched fetches = true /\
    Forall2 (deletionOf resourceGroupName) (owned key (entries pager))
      deletes.
Proof.
  intros key pager E.
  apply deleteManagedIdentities_run in E as (_ & new & Hcalls & Hrun).
  fold key pager in Hrun.
  inversion Hrun as [| |fetches ids deletes Hl Hf Hd Hnew| |]; subst.
  apply listingResult_owned in Hl as (Herr & Hok & ->).
  split; [done|]. split; [done|]. by exists fetches, deletes.
Qed.

(** X2. A nil return means nothing owned is left.  When
    [deleteManagedIdentities] returns nil, every page was fetched, every
    entry could be inspected, and its calls are the successful fetches
    followed by one successful deletion for each owned entry of the
    listing, in the order of the pages. *)
Theorem nil_return_means_all_owned_deleted client name resourceGroupName
    subscriptionID region st :
  let key := ownedTagKey name in
  let pager :=
    NewListByResourceGroupPager (UserAssignedIdentities client) (calls st)
      resourceGroupName in
  let run :=
    deleteManagedIdentities client name resourceGroupName subscriptionID
      region st in
  fst run = Done None ->
  pagerError pager = None /\
  forallb (entryOk key) (entries pager) = true /\
  exists fetches deletes,
    calls (snd run) = calls st ++ fetches ++ deletes /\
    forallb fetched fetches = true /\
    Forall2 (deletionOf resourceGroupName) (owned key (entries pager))
      deletes.
Proof.
  intros key pager run. subst run.
  destruct (deleteManagedIdentities _ _ _ _ _ st) as [r st'] eqn:E. simpl.
  intros ->. by apply deleteManagedIdentities_nil in E.
Qed.

(** X3. The deletions stop at the first obstacle.  When the listing gave
    identities to delete, [deleteManagedIdentities] deletes a prefix of
    them in order, with one successful call and one log line each, and
    stops at the first identity whose deletion fails (the error is
    returned) or that lacks a pointer (a panic).  An identity with a
    [Name] but no [Type] or no [ID] is deleted by a successful call before
    the panic, and no line is logged for it; the identities after the
    obstacle are not touched. *)
Theorem deletions_stop_at_first_obstacle client name resourceGroupName
    subscriptionID region st managedIdentities :
  let key := ownedTagKey name in
  let pager :=
    NewListByResourceGroupPager (UserAssignedIdentities client) (calls st)
      resourceGroupName in
  let run :=
    deleteManagedIdentities client name resourceGroupName subscriptionID
      region st in
  fst (listOwned resourceGroupName key pager [] st)
    = Done (inl managedIdentities) ->
  managedIdentities <> [] ->
  exists done rest oks lines tail,
    managedIdentities = done ++ rest /\
    Forall2 (deletionOf resourceGroupName) done oks /\
    Forall2 loggedAs done lines /\
    calls (snd run) =
      calls st ++ listingCalls resourceGroupName key pager ++ oks ++ tail /\
    logs (snd run) = logs st ++ lines /\
    match fst run with
    | Done None => rest = [] /\ tail = []
    | Done (Some e) =>
        exists identity rest' resourceName,
          rest = identity :: rest' /\
          armmsi.Name identity = Some resourceName /\
          tail = [IdentityDeleteCall context_Background resourceGroupName
                    resourceName (Some e)]
    | Panicked =>
        exists identity rest',
          rest = identity :: rest' /\
          ((armmsi.Name identity = None /\ tail = []) \/
           (exists resourceName,
              armmsi.Name identity = Some resourceName /\
              (armmsi.Type' identity = None \/ armmsi.ID identity = None) /\
              tail = [IdentityDeleteCall context_Background resourceGroupName
                        resourceName None]))
    | Exited _ => False
    end.
Proof.
  intros key pager run Hl Hne. subst run.
  rewrite listOwned_spec in Hl. simpl in Hl.
  rewrite deleteManagedIdentities_spec. cbv zeta. fold key pager.
  rewrite Hl. destruct managedIdentities as [|identity ids]; [done|].
  destruct (deleteEach_prefix client resourceGroupName (identity :: ids)
              (addCalls (listingCalls resourceGroupName key pager) st))
    as (done & rest & oks & lines & tail & Hids & Hoks & Hlines & Hst & Hr).
  exists done, rest, oks, lines, tail. rewrite Hst. simpl.
  rewrite <- app_assoc. done.
Qed.

(** ** The owned tag key *)

Lemma append_inj_l (prefix a b : string) :
  prefix +:+ a = prefix +:+ b -> a = b.
Proof.
  induction prefix as [|ch prefix IH]; simpl; [done|].
  intros H. inversion H. by apply IH.
Qed.

(** X4. Tag keys do not collide.  Two names give the same tag key only
    when they are the same name; hence an identity whose only tag is the
    owned tag of another name is not selected, and nothing fails. *)
Theorem owned_tag_keys_do_not_collide name1 name2 :
  (ownedTagKey name1 = ownedTagKey name2 -> name1 = name2) /\
  (name1 <> name2 ->
   forall identity value acc st,
     armmsi.Tags identity = {[ ownedTagKey name2 := value ]} ->
     selectOwned (ownedTagKey name1) (Some identity) acc st = (Done acc, st)).
Proof.
  assert (Hinj : ownedTagKey name1 = ownedTagKey name2 -> name1 = name2).
  { unfold ownedTagKey. intros H.
    apply append_inj_l in H. by apply (append_inj_l "_") in H. }
  split; [done|].
  intros Hne identity value acc st Htags. rewrite selectOwned_spec.
  assert (Hnone : armmsi.Tags identity !! ownedTagKey name1 = None).
  { rewrite Htags. apply lookup_singleton_ne. intros H. apply Hne.
    symmetry in H. by apply Hinj. }
  unfold entryOk, owned, isOwned. simpl. rewrite Hnone. simpl.
  by rewrite app_nil_r.
Qed.

Lemma owned_tag_keys_do_not_collide_witness :
  "cluster1" <> "other" /\
  selectOwned (ownedTagKey "cluster1") (Some (Scenario.taggedFor "other")) []
    Sample.fineStart = (Done [], Sample.fineStart).
Proof.
  split; [discriminate|].
  apply (proj2 (owned_tag_keys_do_not_collide "cluster1" "other"))
    with (value := Some "owned");
    [discriminate | reflexivity].
Defined.

(** ** deleteCmd before its first call *)

(** X5. Nothing is called before the pre-flight passes.  [deleteCmd] makes
    a remote call only when the credential and the client were built and
    the storage-account name, with its default in, passed the validation.
    Each of the three failures exits with status 1 and leaves the calls as
    they were; a failure to build the client logs a fixed line, whatever
    the error was. *)
Theorem no_call_before_preflight_passes validate env st :
  let run := deleteCmd validate env st in
  let o := DeleteOpts st in
  (calls (snd run) <> calls st ->
   exists cred client,
     NewDefaultAzureCredential env = inl cred /\
     NewAzureClientWrapper env (SubscriptionID o) cred = inl client /\
     validate (effectiveAccount o) = None) /\
  (forall err,
     NewDefaultAzureCredential env = inr err ->
     run = (Exited 1, addLogs [Error err] st)) /\
  (forall cred err,
     NewDefaultAzureCredential env = inl cred ->
     NewAzureClientWrapper env (SubscriptionID o) cred = inr err ->
     run = (Exited 1, addLogs ["Failed to create Azure client"] st)) /\
  (forall cred client err,
     NewDefaultAzureCredential env = inl cred ->
     NewAzureClientWrapper env (SubscriptionID o) cred = inl client ->
     validate (effectiveAccount o) = Some err ->
     fst run = Exited 1 /\ calls (snd run) = calls st /\
     exists lines, logs (snd run) = logs st ++ lines ++ [Error err]).
Proof.
  intros run o. subst run o. rewrite deleteCmd_spec.
  split; [|split; [|split]].
  - destruct (NewDefaultAzureCredential env) as [cred|err]; [|done].
    destruct (NewAzureClientWrapper env _ cred) as [client|err] eqn:Eclient;
      [|done].
    destruct (validate _) as [err|].
    + simpl. rewrite defaulted_calls. done.
    + intros _. by exists cred, client.
  - by intros err ->.
  - by intros cred err -> ->.
  - intros cred client err -> -> ->. simpl. rewrite defaulted_calls.
    split; [done|]. split; [done|].
    unfold defaulted, defaultAccount, defaultGroup.
    repeat case_decide; simpl; rewrite <- ?app_assoc;
      first [ by eexists [_; _] | by eexists [_] | by exists [] ].
Qed.

Lemma no_call_before_preflight_passes_witness :
  deleteCmd validateStorageAccountName Scenario.noCredential Sample.fineStart
    = (Exited 1, addLogs ["boom"] Sample.fineStart) /\
  deleteCmd validateStorageAccountName Scenario.noClient Sample.fineStart
    = (Exited 1, addLogs ["Failed to create Azure client"] Sample.fineStart) /\
  calls (snd (deleteCmd validateStorageAccountName
                (Sample.env (Sample.happy Sample.twoPages))
                Scenario.badAccountStart)) = [] /\
  exists cred client,
    NewDefaultAzureCredential (Sample.env (Sample.happy Sample.twoPages))
      = inl cred /\
    NewAzureClientWrapper (Sample.env (Sample.happy Sample.twoPages))
      "sub" cred = inl client /\
    validateStorageAccountName "cluster1" = None.
Proof.
  split; [|split; [|split]].
  - apply (proj1 (proj2 (no_call_before_preflight_passes
                           validateStorageAccountName Scenario.noCredential
                           Sample.fineStart)) Sample.boom).
    reflexivity.
  - apply (proj1 (proj2 (proj2 (no_call_before_preflight_passes
                                  validateStorageAccountName Scenario.noClient
                                  Sample.fineStart)))
             {| azidentity.tenantID := "t" |} Sample.boom);
      reflexivity.
  - apply (proj2 (proj2 (proj2 (no_call_before_preflight_passes
                                  validateStorageAccountName
                                  (Sample.env (Sample.happy Sample.twoPages))
                                  Scenario.badAccountStart)))
             {| azidentity.tenantID := "t" |} (Sample.happy Sample.twoPages)
             (errors_New
                "storage account name must be 3 to 24 lowercase letters or digits"));
      vm_compute; reflexivity.
  - apply (proj1 (no_call_before_preflight_passes validateStorageAccountName
                    (Sample.env (Sample.happy Sample.twoPages))
                    Sample.fineStart)).
    vm_compute. discriminate.
Defined.


(** ** deleteCmd, call by call *)

Lemma fineGrainedDelete_cases client st :
  fineGrainedDelete client st =
  match deleteManagedIdentities client (Name (DeleteOpts st))
          (OIDCResourceGroupName (DeleteOpts st))
          (SubscriptionID (DeleteOpts st)) (Region (DeleteOpts st)) st with
  | (Done (Some e), st1) => (Exited 1, addLogs [Error e] st1)
  | (Done None, st1) =>
      match deleteStorageAccount client
              (OIDCResourceGroupName (DeleteOpts st1))
              (StorageAccountName (DeleteOpts st1)) st1 with
      | (Done (Some e), st2) => (Exited 1, addLogs [Error e] st2)
      | (Done None, st2) => (Done tt, st2)
      | (Panicked, st2) => (Panicked, st2)
      | (Exited code, st2) => (Exited code, st2)
      end
  | (Panicked, st1) => (Panicked, st1)
  | (Exited code, st1) => (Exited code, st1)
  end.
Proof.
  unfold fineGrainedDelete. unfold mbind, M_bind, readOpt, log_Fatal, mret,
    M_ret.
  destruct (deleteManagedIdentities client _ _ _ _ st)
    as [[[e|]| |code] st1]; try done.
  destruct (deleteStorageAccount client _ _ st1) as [[[e|]| |code] st2]; done.
Qed.

Lemma quiet_succeeded l :
  forallb quiet l = true -> forallb succeeded l = true.
Proof.
  rewrite !forallb_forall. intros H c Hc. specialize (H c Hc).
  by destruct c as [? ? [?|]|? ? ? [?|]|? ? [?|]|? ? [?|]|? ? ? [?|]].
Qed.

Lemma succeeded_no_failure c line :
  succeeded c = true -> failureLine c = Some line -> False.
Proof.
  by destruct c as [? ? [?|]|? ? ? [?|]|? ? [?|]|? ? [?|]|? ? ? [?|]].
Qed.

(** A run of [deleteManagedIdentities]: where its calls are aimed, and
    which of them may have failed. *)
Lemma deleteManagedIdentities_shape client name resourceGroupName
    subscriptionID region account st r st' :
  deleteManagedIdentities client name resourceGroupName subscriptionID region
    st = (r, st') ->
  DeleteOpts st' = DeleteOpts st /\
  exists new,
    calls st' = calls st ++ new /\
    (forall c, In c new -> onTarget resourceGroupName account c) /\
    match r with
    | Done None | Panicked => forallb succeeded new = true
    | Done (Some e) =>
        exists pre c,
          new = pre ++ [c] /\ forallb succeeded pre = true /\
          failureLine c = Some (Error e)
    | Exited _ => False
    end.
Proof.
  intros E.
  destruct (deleteManagedIdentities_calls client name resourceGroupName
              subscriptionID region st) as (dels & Hcalls & Hdels).
  rewrite E in Hcalls. simpl in Hcalls.
  apply deleteManagedIdentities_run in E as (Hopts & new & Hnew & Hrun).
  split; [done|]. exists new. split; [done|]. split.
  - assert (Heq : new = listingCalls resourceGroupName (ownedTagKey name)
                          (NewListByResourceGroupPager
                             (UserAssignedIdentities client) (calls st)
                             resourceGroupName) ++ dels)
      by (rewrite Hnew in Hcalls; by apply app_inv_head in Hcalls).
    intros c Hin. rewrite Heq in Hin. apply in_app_or in Hin as [Hin|Hin].
    + apply listingCalls_fetches in Hin as [res ->]. done.
    + destruct (Hdels c Hin) as (identity & n & res & _ & _ & ->). done.
  - apply IdentitiesRun_shape in Hrun
      as [[Hq [->| ->]]|(pre & e & -> & Hq & Hlast)].
    + by apply quiet_succeeded.
    + by apply quiet_succeeded.
    + destruct Hlast as [[-> _]|[n ->]]; eexists pre, _;
        (split; [done|]); (split; [by apply quiet_succeeded | done]).
Qed.

(** A run of [deleteCmd]: where its calls are aimed, and how it ends.
    Either every call succeeded, or the one call that failed is the last,
    the command exits with status 1 and its last log line is the line of
    that failure. *)
Lemma deleteCmd_shape validate env st :
  let run := deleteCmd validate env st in
  let o := DeleteOpts st in
  exists new,
    calls (snd run) = calls st ++ new /\
    (forall c, In c new ->
       onTarget (effectiveGroup o) (effectiveAccount o) c) /\
    ((forallb succeeded new = true /\
      (fst run = Panicked \/ fst run = Done tt \/
       (new = [] /\ fst run = Exited 1))) \/
     (exists pre c line,
        new = pre ++ [c] /\ forallb succeeded pre = true /\
        failureLine c = Some line /\ fst run = Exited 1 /\
        exists lines, logs (snd run) = lines ++ [line])).
Proof.
  intros run o. subst run o.
  assert (Hnone : forall st0, calls st0 = calls st ->
    exists new,
      calls st0 = calls st ++ new /\
      (forall c, In c new ->
         onTarget (effectiveGroup (DeleteOpts st))
           (effectiveAccount (DeleteOpts st)) c) /\
      ((forallb succeeded new = true /\
        (@Exited unit 1 = Panicked \/ @Exited unit 1 = Done tt \/
         (new = [] /\ @Exited unit 1 = Exited 1))) \/
       (exists pre c line,
          new = pre ++ [c] /\ forallb succeeded pre = true /\
          failureLine c = Some line /\ @Exited unit 1 = Exited 1 /\
          exists lines, logs st0 = lines ++ [line]))).
  { intros st0 H. exists []. rewrite app_nil_r.
    split; [done|]. split; [done|]. left. split; [done|]. by right; right. }
  rewrite deleteCmd_spec.
  destruct (NewDefaultAzureCredential env) as [cred|err];
    [|by apply Hnone].
  destruct (NewAzureClientWrapper env _ cred) as [client|err];
    [|by apply Hnone].
  destruct (validate _) as [err|];
    [apply Hnone; simpl; apply defaulted_calls|].
  clear Hnone.
  destruct (DeleteOIDCResourceGroup (DeleteOpts st)).
  - rewrite groupDelete_spec, deleteResourceGroup_spec, defaulted_group,
      defaulted_calls. cbv zeta.
    destruct (BeginDelete (ResourceGroups client) (calls st)
                context_Background (effectiveGroup (DeleteOpts st)))
      as [pollerResp|e].
    + match goal with
      | |- context [PollUntilDone pollerResp ?h ?c ?f] =>
          set (res := PollUntilDone pollerResp h c f)
      end.
      exists [BeginDeleteCall context_Background
                (effectiveGroup (DeleteOpts st)) None;
              PollUntilDoneCall context_Background (10 * time_Second) res].
      destruct res as [e|]; simpl; rewrite defaulted_calls;
        (split; [done|]);
        (split; [intros c [<-|[<-|[]]]; done|]).
      * right.
        exists [BeginDeleteCall context_Background
                  (effectiveGroup (DeleteOpts st)) None],
          (PollUntilDoneCall context_Background (10 * time_Second) (Some e)),
          (Error e).
        split; [done|]. split; [done|]. split; [done|]. split; [done|].
        by eexists.
      * left. split; [done|]. by right; left.
    + exists [BeginDeleteCall context_Background
                (effectiveGroup (DeleteOpts st)) (Some e)].
      simpl. rewrite defaulted_calls. split; [done|].
      split; [intros c [<-|[]]; done|].
      right. exists [], (BeginDeleteCall context_Background
                           (effectiveGroup (DeleteOpts st)) (Some e)),
               ("failed to delete resource group: " +:+ Error e).
      split; [done|]. split; [done|]. split; [done|]. split; [done|].
      by eexists.
  - rewrite fineGrainedDelete_cases.
    destruct (defaulted_others st) as (HName & _). simpl in HName.
    rewrite defaulted_group.
    destruct (deleteManagedIdentities client _ _ _ _ (defaulted st))
      as [r1 st1] eqn:E1.
    apply (deleteManagedIdentities_shape _ _ _ _ _
             (effectiveAccount (DeleteOpts st))) in E1
      as (Hopts & new & Hcalls & Hscope & Hr).
    rewrite defaulted_calls in Hcalls.
    destruct r1 as [[e|]| |code].
    + destruct Hr as (pre & c & -> & Hpre & Hline).
      exists (pre ++ [c]). simpl. split; [done|]. split; [done|].
      right. exists pre, c, (Error e).
      split; [done|]. split; [done|]. split; [done|]. split; [done|].
      by eexists.
    + rewrite deleteStorageAccount_spec. cbv zeta.
      rewrite Hopts, defaulted_group, defaulted_account.
      set (res := StorageDelete _ _ _ _ _).
      exists (new ++ [StorageDeleteCall context_Background
                        (effectiveGroup (DeleteOpts st))
                        (effectiveAccount (DeleteOpts st)) res]).
      assert (Hall : forall c,
                In c (new ++ [StorageDeleteCall context_Background
                                (effectiveGroup (DeleteOpts st))
                                (effectiveAccount (DeleteOpts st)) res]) ->
                onTarget (effectiveGroup (DeleteOpts st))
                  (effectiveAccount (DeleteOpts st)) c).
      { intros c Hin. apply in_app_or in Hin as [Hin|[<-|[]]];
          [by apply Hscope | done]. }
      destruct res as [e|]; simpl; rewrite Hcalls, <- app_assoc;
        (split; [done|]); (split; [exact Hall|]).
      * right. exists new, (StorageDeleteCall context_Background
                               (effectiveGroup (DeleteOpts st))
                               (effectiveAccount (DeleteOpts st)) (Some e)),
                 ("failed to delete storage account: " +:+ Error e).
        split; [done|]. split; [done|]. split; [done|]. split; [done|].
        by eexists.
      * left. split; [|by right; left].
        rewrite forallb_app, Hr. done.
    + exists new. simpl. split; [done|]. split; [done|].
      left. split; [done|]. by left.
    + done.
Qed.


(** X6. The calls stay on target.  Every call of [deleteCmd] is made under
    the background context; every call that names a resource group names
    the one of the options, with its default in; the storage-account
    deletion names the account of the options, with its default in; and
    the poll asks for a frequency of ten seconds. *)
Theorem calls_stay_on_target validate env st :
  let o := DeleteOpts st in
  exists new,
    calls (snd (deleteCmd validate env st)) = calls st ++ new /\
    forall c, In c new ->
      onTarget (effectiveGroup o) (effectiveAccount o) c /\
      callContext c = context_Background /\
      forall group, callGroup c = Some group -> group = effectiveGroup o.
Proof.
  intros o. subst o.
  destruct (deleteCmd_shape validate env st) as (new & Hcalls & Hscope & _).
  exists new. split; [done|]. intros c Hin. specialize (Hscope c Hin).
  split; [done|].
  destruct c; simpl in *; (split; [tauto|]); intros group H;
    inversion H; subst; tauto.
Qed.

(** X7. No failure is swallowed.  In any run of [deleteCmd], a call that
    failed is the last call, every call before it succeeded, the command
    exits with status 1, and the last line it logs is the text of that
    error, behind the context "failed to delete resource group" for a
    deletion that could not begin and "failed to delete storage account"
    for the storage-account deletion. *)
Theorem a_failed_call_is_fatal validate env st :
  let run := deleteCmd validate env st in
  exists new,
    calls (snd run) = calls st ++ new /\
    forall c line,
      In c new -> failureLine c = Some line ->
      fst run = Exited 1 /\
      (exists pre, new = pre ++ [c] /\ forallb succeeded pre = true) /\
      exists lines, logs (snd run) = lines ++ [line].
Proof.
  intros run. subst run.
  destruct (deleteCmd_shape validate env st)
    as (new & Hcalls & _ & [[Hok _]|(pre & c0 & line0 & -> & Hpre & Hline0
                                     & Hr & Hlogs)]).
  - exists new. split; [done|]. intros c line Hin Hline.
    destruct (succeeded_no_failure c line (forallb_In _ _ _ Hok Hin) Hline).
  - exists (pre ++ [c0]). split; [done|]. intros c line Hin Hline.
    apply in_app_or in Hin as [Hin|[<-|[]]].
    + destruct (succeeded_no_failure c line (forallb_In _ _ _ Hpre Hin) Hline).
    + rewrite Hline in Hline0. inversion Hline0; subst.
      split; [done|]. split; [by exists pre | done].
Qed.

(** X8. What the exit status tells.  [deleteCmd] exits with no other
    status than 1.  When it returns instead, the pre-flight passed and
    every call succeeded: with [DeleteOIDCResourceGroup] set, the calls are
    the begin of the resource-group deletion and one poll, and the last
    log line reports the resource group deleted; without it, every page
    was fetched, the calls are the fetches, one deletion for each owned
    entry of the listing in its order and the storage-account deletion,
    and the last log line reports the storage account deleted. *)
Theorem exit_status_tells_completion validate env st :
  let run := deleteCmd validate env st in
  let o := DeleteOpts st in
  let group := effectiveGroup o in
  let account := effectiveAccount o in
  (forall code, fst run = Exited code -> code = 1) /\
  (fst run = Done tt ->
   exists cred client new lines,
     NewDefaultAzureCredential env = inl cred /\
     NewAzureClientWrapper env (SubscriptionID o) cred = inl client /\
     validate account = None /\
     calls (snd run) = calls st ++ new /\
     forallb succeeded new = true /\
     if DeleteOIDCResourceGroup o
     then
       new = [BeginDeleteCall context_Background group None;
              PollUntilDoneCall context_Background (10 * time_Second) None] /\
       logs (snd run) = lines ++ ["Deleted resource group " +:+ group]
     else
       let pager :=
         NewListByResourceGroupPager (UserAssignedIdentities client)
           (calls st) group in
       pagerError pager = None /\
       logs (snd run) = lines ++ ["Deleted storage account " +:+ account] /\
       exists fetches deletes,
         new = fetches ++ deletes ++
               [StorageDeleteCall context_Background group account None] /\
         forallb fetched fetches = true /\
         Forall2 (deletionOf group)
           (owned (ownedTagKey (Name o)) (entries pager)) deletes).
Proof.
  intros run o group account. subst run o group account. split.
  - intros code Hcode.
    destruct (deleteCmd_shape validate env st)
      as (new & _ & _ & [[_ [H|[H|[_ H]]]]|(pre & c & line & _ & _ & _ & H & _)]);
      rewrite H in Hcode; by inversion Hcode.
  - rewrite deleteCmd_spec.
    destruct (NewDefaultAzureCredential env) as [cred|err] eqn:Ecred; [|done].
    destruct (NewAzureClientWrapper env _ cred) as [client|err] eqn:Eclient;
      [|done].
    destruct (validate _) as [err|] eqn:Evalid; [done|].
    destruct (DeleteOIDCResourceGroup (DeleteOpts st)).
    + rewrite groupDelete_spec, deleteResourceGroup_spec, defaulted_group,
        defaulted_calls. cbv zeta.
      destruct (BeginDelete (ResourceGroups client) (calls st)
                  context_Background (effectiveGroup (DeleteOpts st)))
        as [pollerResp|e]; [|done].
      destruct (PollUntilDone pollerResp _ _ _) as [e|]; [done|].
      intros _. exists cred, client. eexists _, _. simpl.
      rewrite defaulted_calls.
      split; [done|]. split; [done|]. split; [done|]. split; [done|].
      split; [done|]. split; done.
    + rewrite fineGrainedDelete_cases.
      destruct (defaulted_others st) as (HName & _). simpl in HName.
      rewrite defaulted_group, HName.
      destruct (deleteManagedIdentities client _ _ _ _ (defaulted st))
        as [[[e|]| |code] st1] eqn:E1; try done.
      pose proof E1 as Hrun.
      apply deleteManagedIdentities_run in Hrun as (Hopts & _).
      apply deleteManagedIdentities_nil in E1
        as (Herr & _ & fetches & deletes & Hcalls & Hf & Hd).
      rewrite defaulted_calls in *.
      rewrite deleteStorageAccount_spec. cbv zeta.
      rewrite Hopts, defaulted_group, defaulted_account.
      destruct (StorageDelete _ _ _ _ _) as [e|]; [done|].
      intros _. exists cred, client. eexists _, _. simpl.
      split; [done|]. split; [done|]. split; [done|].
      split; [by rewrite Hcalls, <- !app_assoc|].
      split.
      * rewrite !forallb_app, (quiet_succeeded _ (fetched_quiet _ Hf)).
        rewrite (quiet_succeeded _
                   (deleted_quiet _ (deletionOf_deleted _ _ _ Hd))).
        done.
      * split; [done|]. split; [done|]. by exists fetches, deletes.
Qed.

(** ** Computations that do not see Region *)

Lemma rblind_ret {A} (a : A) : regionBlind (mret a).
Proof. intros st1 st2 H. done. Qed.

Lemma rblind_bind {A B} (m : M A) (k : A -> M B) :
  regionBlind m -> (forall a, regionBlind (k a)) -> regionBlind (m ≫= k).
Proof.
  intros Hm Hk st1 st2 H. unfold mbind, M_bind.
  destruct (Hm st1 st2 H) as [Hr Hst].
  destruct (m st1) as [r1 st1'], (m st2) as [r2 st2']. simpl in Hr, Hst.
  subst r2. destruct r1 as [a| |code]; [by apply Hk | done | done].
Qed.

(** A field that is read and then not used may differ. *)
Lemma rblind_bind_unused {A B} (field : azureOptions -> A) (k : A -> M B) :
  (forall a1 a2, k a1 = k a2) -> (forall a, regionBlind (k a)) ->
  regionBlind (readOpt field ≫= k).
Proof.
  intros Hsame Hk st1 st2 H. unfold mbind, M_bind, readOpt.
  rewrite (Hsame (field (DeleteOpts st1)) (field (DeleteOpts st2))).
  by apply Hk.
Qed.

Lemma rblind_panic {A} : regionBlind (@panic A).
Proof. intros st1 st2 H. done. Qed.

Lemma rblind_deref {A} (p : option A) : regionBlind (deref p).
Proof. destruct p; [apply rblind_ret | apply rblind_panic]. Qed.

Lemma rblind_log_Printf line : regionBlind (log_Printf line).
Proof.
  intros st1 st2 (Ho & Hc & Hl). unfold log_Printf, akin. simpl.
  by rewrite Hl.
Qed.

Lemma rblind_log_Fatal {A} line : regionBlind (@log_Fatal A line).
Proof.
  intros st1 st2 (Ho & Hc & Hl). unfold log_Fatal, akin. simpl.
  by rewrite Hl.
Qed.

Lemma rblind_remote {R} (oracle : list Call -> R) (call : R -> Call) :
  regionBlind (remote oracle call).
Proof.
  intros st1 st2 (Ho & Hc & Hl). unfold remote, akin. simpl.
  by rewrite Hc.
Qed.

Lemma rblind_newPager mk : regionBlind (newPager mk).
Proof.
  intros st1 st2 (Ho & Hc & Hl). unfold newPager, akin. simpl.
  by rewrite Hc.
Qed.

Lemma rblind_readOpt {A} (field : azureOptions -> A) :
  (forall o1 o2, sameButRegion o1 o2 -> field o1 = field o2) ->
  regionBlind (readOpt field).
Proof.
  intros Hfield st1 st2 (Ho & Hc & Hl). unfold readOpt, akin. simpl.
  by rewrite (Hfield _ _ Ho).
Qed.

Lemma rblind_writeOpts (f : azureOptions -> azureOptions) :
  (forall o1 o2, sameButRegion o1 o2 -> sameButRegion (f o1) (f o2)) ->
  regionBlind (writeOpts f).
Proof.
  intros Hf st1 st2 (Ho & Hc & Hl). unfold writeOpts, akin. simpl.
  split; [done|]. split; [by apply Hf | done].
Qed.

(** One step of a proof that a computation does not see [Region]. *)
Ltac rblind_step :=
  first
    [ match goal with
      | |- regionBlind (readOpt Region ≫= _) =>
          apply rblind_bind_unused; [intros ? ?; reflexivity | intros ?]
      end
    | apply rblind_bind; [|intros ?]
    | apply rblind_ret
    | apply rblind_panic
    | apply rblind_deref
    | apply rblind_log_Printf
    | apply rblind_log_Fatal
    | apply rblind_remote
    | apply rblind_newPager
    | apply rblind_readOpt; intros ? ? (? & ? & ? & ? & ? & ?); assumption
    | apply rblind_writeOpts; intros ? ? (? & ? & ? & ? & ? & ?);
      repeat split; simpl; congruence
    | assumption
    | match goal with
      | |- regionBlind (match ?x with _ => _ end) => destruct x
      end ].

Lemma rblind_rangePage key page acc : regionBlind (rangePage key page acc).
Proof.
  revert acc. induction page as [|entry page IH]; intros acc; simpl.
  - apply rblind_ret.
  - apply rblind_bind; [|intros ?; apply IH].
    unfold selectOwned. repeat rblind_step.
Qed.

Lemma rblind_listOwned resourceGroupName key pager acc :
  regionBlind (listOwned resourceGroupName key pager acc).
Proof.
  revert acc. induction pager as [err|page|page rest IH]; intros acc; simpl.
  - repeat rblind_step.
  - apply rblind_bind; [apply rblind_remote|intros ?].
    apply rblind_bind; [apply rblind_rangePage|intros ?]. apply rblind_ret.
  - apply rblind_bind; [apply rblind_remote|intros ?].
    apply rblind_bind; [apply rblind_rangePage|intros ?]. apply IH.
Qed.

Lemma rblind_deleteEach client resourceGroupName managedIdentities :
  regionBlind (deleteEach client resourceGroupName managedIdentities).
Proof.
  induction managedIdentities as [|identity rest IH]; simpl;
    repeat rblind_step.
Qed.

Lemma rblind_deleteManagedIdentities client name resourceGroupName
    subscriptionID region :
  regionBlind
    (deleteManagedIdentities client name resourceGroupName subscriptionID
       region).
Proof.
  unfold deleteManagedIdentities.
  apply rblind_bind; [apply rblind_newPager|intros pager].
  apply rblind_bind; [apply rblind_listOwned|intros [ids|err]].
  - case_decide; [repeat rblind_step | apply rblind_deleteEach].
  - apply rblind_ret.
Qed.

Lemma rblind_deleteResourceGroup client resourceGroupName :
  regionBlind (deleteResourceGroup client resourceGroupName).
Proof. unfold deleteResourceGroup. repeat rblind_step. Qed.

Lemma rblind_deleteStorageAccount client resourceGroupName storageAccountName :
  regionBlind
    (deleteStorageAccount client resourceGroupName storageAccountName).
Proof. unfold deleteStorageAccount. repeat rblind_step. Qed.

Lemma rblind_deleteCmd validate env : regionBlind (deleteCmd validate env).
Proof.
  unfold deleteCmd.
  repeat first
    [ apply rblind_deleteResourceGroup
    | apply rblind_deleteManagedIdentities
    | apply rblind_deleteStorageAccount
    | rblind_step ].
Qed.

(** X9. The region does not interfere with the command.  From two states
    with the same calls and log lines whose options differ at most in
    [Region], [deleteCmd] ends with the same outcome, the same calls and
    the same log lines: the value of the required flag region changes
    nothing the command does. *)
Theorem region_changes_nothing validate env st1 st2 :
  sameButRegion (DeleteOpts st1) (DeleteOpts st2) ->
  calls st1 = calls st2 ->
  logs st1 = logs st2 ->
  let run1 := deleteCmd validate env st1 in
  let run2 := deleteCmd validate env st2 in
  fst run1 = fst run2 /\
  calls (snd run1) = calls (snd run2) /\
  logs (snd run1) = logs (snd run2) /\
  sameButRegion (DeleteOpts (snd run1)) (DeleteOpts (snd run2)).
Proof.
  intros Ho Hc Hl run1 run2. subst run1 run2.
  destruct (rblind_deleteCmd validate env st1 st2) as (Hr & Ho' & Hc' & Hl');
    done.
Qed.

(** X10. Without the flag the resource group survives.  With
    [DeleteOIDCResourceGroup] unset, whatever the other options and the
    collaborators' answers, every call of [deleteCmd] is a page fetch, an
    identity deletion or the storage-account deletion: the deletion of the
    resource group is neither begun nor polled. *)
Theorem group_survives_without_flag validate env st :
  DeleteOIDCResourceGroup (DeleteOpts st) = false ->
  exists new,
    calls (snd (deleteCmd validate env st)) = calls st ++ new /\
    forallb fineGrained new = true /\
    forall ctx group res frequency,
      ~ In (BeginDeleteCall ctx group res) new /\
      ~ In (PollUntilDoneCall ctx frequency res) new.
Proof.
  intros Hflag.
  assert (Hfine : forall new, forallb fineGrained new = true ->
            forall ctx group res frequency,
              ~ In (BeginDeleteCall ctx group res) new /\
              ~ In (PollUntilDoneCall ctx frequency res) new).
  { intros new Hall ctx group res frequency.
    split; intros Hin; by pose proof (forallb_In _ _ _ Hall Hin). }
  rewrite deleteCmd_spec, Hflag.
  assert (Hnone : forall (r : Outcome unit) st0, calls st0 = calls st ->
            exists new, calls (snd (r, st0)) = calls st ++ new /\
              forallb fineGrained new = true /\
              forall ctx group res frequency,
                ~ In (BeginDeleteCall ctx group res) new /\
                ~ In (PollUntilDoneCall ctx frequency res) new).
  { intros r st0 H. exists [].
    split; [simpl; by rewrite app_nil_r|]. split; [done|]. by apply Hfine. }
  destruct (NewDefaultAzureCredential env) as [cred|err]; [|by apply Hnone].
  destruct (NewAzureClientWrapper env _ cred) as [client|err];
    [|by apply Hnone].
  destruct (validate _) as [err|];
    [apply Hnone; simpl; apply defaulted_calls|].
  clear Hnone. rewrite fineGrainedDelete_cases.
  destruct (deleteManagedIdentities_calls client
              (Name (DeleteOpts (defaulted st)))
              (OIDCResourceGroupName (DeleteOpts (defaulted st)))
              (SubscriptionID (DeleteOpts (defaulted st)))
              (Region (DeleteOpts (defaulted st))) (defaulted st))
    as (dels & Hcalls & Hdels).
  match type of Hcalls with
  | _ = _ ++ ?fetches ++ _ => set (listing := fetches) in *
  end.
  assert (Hnew : forallb fineGrained (listing ++ dels) = true).
  { apply forallb_forall. intros c Hin.
    apply in_app_or in Hin as [Hin|Hin].
    - apply listingCalls_fetches in Hin as [res ->]. done.
    - destruct (Hdels c Hin) as (identity & n & res & _ & _ & ->). done. }
  destruct (deleteManagedIdentities client _ _ _ _ (defaulted st))
    as [r1 st1] eqn:E1.
  simpl in Hcalls. rewrite defaulted_calls in Hcalls.
  destruct r1 as [[e|]| |code];
    try (exists (listing ++ dels); simpl;
         split; [done|]; split; [done|]; by apply Hfine).
  rewrite deleteStorageAccount_spec. cbv zeta.
  match goal with
  | |- context [StorageDeleteCall ?c ?g ?a ?r] =>
      set (last := StorageDeleteCall c g a r)
  end.
  assert (Hall : forallb fineGrained ((listing ++ dels) ++ [last]) = true)
    by (rewrite forallb_app, Hnew; done).
  exists ((listing ++ dels) ++ [last]).
  destruct (StorageDelete _ _ _ _ _); simpl; rewrite Hcalls, <- !app_assoc;
    (split; [done|]); rewrite <- !app_assoc in Hall;
    (split; [exact Hall|]); by apply Hfine.
Qed.

(** ** Sample runs of the further properties *)

Lemma only_owned_identities_are_deleted_witness :
  In (IdentityDeleteCall context_Background "cluster1-oidc" "c" None)
    (calls (snd (deleteManagedIdentities (Sample.happy Sample.twoPages)
                   "cluster1" "cluster1-oidc" "sub" "eastus"
                   Sample.fineStart))) /\
  exists identity,
    In (Some identity) (entries Sample.twoPages) /\
    armmsi.Tags identity
      !! (ownedAzureResourceTagKeyPrefix +:+ "_" +:+ "cluster1")
      = Some (Some "owned") /\
    armmsi.Name identity = Some "c".
Proof.
  split; [vm_compute; do 3 right; left; reflexivity|].
  destruct (only_owned_identities_are_deleted (Sample.happy Sample.twoPages)
              "cluster1" "cluster1-oidc" "sub" "eastus" Sample.fineStart)
    as (new & Hcalls & Hdel).
  destruct (Hdel context_Background "cluster1-oidc" "c" None)
    as (_ & _ & Hidentity).
  - vm_compute in Hcalls. rewrite <- Hcalls. do 3 right; left; reflexivity.
  - exact Hidentity.
Defined.

Lemma nil_return_means_all_owned_deleted_witness :
  fst (deleteManagedIdentities (Sample.happy Sample.twoPages) "cluster1"
         "cluster1-oidc" "sub" "eastus" Sample.fineStart) = Done None /\
  exists fetches deletes,
    calls (snd (deleteManagedIdentities (Sample.happy Sample.twoPages)
                  "cluster1" "cluster1-oidc" "sub" "eastus"
                  Sample.fineStart)) =
      calls Sample.fineStart ++ fetches ++ deletes /\
    forallb fetched fetches = true /\
    Forall2 (deletionOf "cluster1-oidc")
      (owned (ownedTagKey "cluster1") (entries Sample.twoPages)) deletes.
Proof.
  split; [vm_compute; reflexivity|].
  apply (nil_return_means_all_owned_deleted (Sample.happy Sample.twoPages)
           "cluster1" "cluster1-oidc" "sub" "eastus" Sample.fineStart).
  vm_compute; reflexivity.
Defined.

Lemma deletions_stop_at_first_obstacle_witness :
  fst (deleteManagedIdentities (Sample.happy Scenario.threeOwned) "cluster1"
         "cluster1-oidc" "sub" "eastus" Sample.fineStart) = Panicked /\
  exists done rest oks lines tail,
    owned (ownedTagKey "cluster1") (entries Scenario.threeOwned)
      = done ++ rest /\
    Forall2 (deletionOf "cluster1-oidc") done oks /\
    Forall2 loggedAs done lines /\
    calls (snd (deleteManagedIdentities (Sample.happy Scenario.threeOwned)
                  "cluster1" "cluster1-oidc" "sub" "eastus"
                  Sample.fineStart)) =
      calls Sample.fineStart ++
      listingCalls "cluster1-oidc" (ownedTagKey "cluster1")
        Scenario.threeOwned ++ oks ++ tail /\
    logs (snd (deleteManagedIdentities (Sample.happy Scenario.threeOwned)
                 "cluster1" "cluster1-oidc" "sub" "eastus"
                 Sample.fineStart)) = logs Sample.fineStart ++ lines.
Proof.
  split; [vm_compute; reflexivity|].
  destruct (deletions_stop_at_first_obstacle
              (Sample.happy Scenario.threeOwned) "cluster1" "cluster1-oidc"
              "sub" "eastus" Sample.fineStart
              (owned (ownedTagKey "cluster1") (entries Scenario.threeOwned)))
    as (done & rest & oks & lines & tail & H1 & H2 & H3 & H4 & H5 & _).
  - vm_compute; reflexivity.
  - vm_compute; discriminate.
  - exists done, rest, oks, lines, tail.
    split; [exact H1|]. split; [exact H2|]. split; [exact H3|].
    split; [exact H4 | exact H5].
Defined.

Lemma calls_stay_on_target_witness :
  In (StorageDeleteCall context_Background "cluster1-oidc" "cluster1" None)
    (calls (snd (deleteCmd validateStorageAccountName
                   (Sample.env (Sample.happy Sample.twoPages))
                   Sample.fineStart))) /\
  onTarget (effectiveGroup (DeleteOpts Sample.fineStart))
    (effectiveAccount (DeleteOpts Sample.fineStart))
    (StorageDeleteCall context_Background "cluster1-oidc" "cluster1" None).
Proof.
  split; [vm_compute; do 4 right; left; reflexivity|].
  destruct (calls_stay_on_target validateStorageAccountName
              (Sample.env (Sample.happy Sample.twoPages)) Sample.fineStart)
    as (new & Hcalls & Hon).
  apply Hon. vm_compute in Hcalls. rewrite <- Hcalls.
  do 4 right; left; reflexivity.
Defined.

Lemma a_failed_call_is_fatal_witness :
  In (StorageDeleteCall context_Background "cluster1-oidc" "cluster1"
        (Some Sample.boom))
    (calls (snd (deleteCmd validateStorageAccountName
                   (Sample.env (Scenario.storageFails Sample.twoPages))
                   Sample.fineStart))) /\
  fst (deleteCmd validateStorageAccountName
         (Sample.env (Scenario.storageFails Sample.twoPages))
         Sample.fineStart) = Exited 1 /\
  exists lines,
    logs (snd (deleteCmd validateStorageAccountName
                 (Sample.env (Scenario.storageFails Sample.twoPages))
                 Sample.fineStart)) =
    lines ++ ["failed to delete storage account: boom"].
Proof.
  split; [vm_compute; do 4 right; left; reflexivity|].
  destruct (a_failed_call_is_fatal validateStorageAccountName
              (Sample.env (Scenario.storageFails Sample.twoPages))
              Sample.fineStart)
    as (new & Hcalls & Hfatal).
  destruct (Hfatal (StorageDeleteCall context_Background "cluster1-oidc"
                      "cluster1" (Some Sample.boom))
              "failed to delete storage account: boom")
    as (Hexit & _ & Hlogs).
  - vm_compute in Hcalls. rewrite <- Hcalls. do 4 right; left; reflexivity.
  - reflexivity.
  - split; [exact Hexit | exact Hlogs].
Defined.

Lemma exit_status_tells_completion_witness :
  fst (deleteCmd validateStorageAccountName
         (Sample.env (Sample.happy Sample.twoPages)) Sample.fineStart)
    = Done tt /\
  exists new,
    calls (snd (deleteCmd validateStorageAccountName
                  (Sample.env (Sample.happy Sample.twoPages))
                  Sample.fineStart)) = calls Sample.fineStart ++ new /\
    forallb succeeded new = true.
Proof.
  split; [vm_compute; reflexivity|].
  destruct (proj2 (exit_status_tells_completion validateStorageAccountName
                     (Sample.env (Sample.happy Sample.twoPages))
                     Sample.fineStart))
    as (cred & client & new & lines & _ & _ & _ & Hcalls & Hok & _).
  - vm_compute; reflexivity.
  - exists new. split; [exact Hcalls | exact Hok].
Defined.

Lemma region_changes_nothing_witness :
  Region (DeleteOpts Scenario.westStart) = "westus" /\
  Region (DeleteOpts Sample.fineStart) = "eastus" /\
  sameButRegion (DeleteOpts Scenario.westStart) (DeleteOpts Sample.fineStart)
  /\
  fst (deleteCmd validateStorageAccountName
         (Sample.env (Sample.happy Sample.twoPages)) Scenario.westStart) =
  fst (deleteCmd validateStorageAccountName
         (Sample.env (Sample.happy Sample.twoPages)) Sample.fineStart) /\
  calls (snd (deleteCmd validateStorageAccountName
                (Sample.env (Sample.happy Sample.twoPages))
                Scenario.westStart)) =
  calls (snd (deleteCmd validateStorageAccountName
                (Sample.env (Sample.happy Sample.twoPages))
                Sample.fineStart)).
Proof.
  assert (Hsame : sameButRegion (DeleteOpts Scenario.westStart)
                    (DeleteOpts Sample.fineStart))
    by (vm_compute; repeat split; reflexivity).
  split; [reflexivity|]. split; [reflexivity|]. split; [exact Hsame|].
  destruct (region_changes_nothing validateStorageAccountName
              (Sample.env (Sample.happy Sample.twoPages))
              Scenario.westStart Sample.fineStart)
    as (Hr & Hc & _); [exact Hsame | reflexivity | reflexivity |].
  split; [exact Hr | exact Hc].
Defined.

Lemma group_survives_without_flag_witness :
  DeleteOIDCResourceGroup (DeleteOpts Sample.fineStart) = false /\
  exists new,
    calls (snd (deleteCmd validateStorageAccountName
                  (Sample.env (Sample.happy Sample.twoPages))
                  Sample.fineStart)) = calls Sample.fineStart ++ new /\
    forallb fineGrained new = true.
Proof.
  split; [reflexivity|].
  destruct (group_survives_without_flag validateStorageAccountName
              (Sample.env (Sample.happy Sample.twoPages)) Sample.fineStart)
    as (new & Hcalls & Hfine & _); [reflexivity|].
  exists new. split; [exact Hcalls | exact Hfine].
Defined.
